(** * Chat widget: token store, authenticated HTTP client, reply normalizer
      and property pagination

    A shallow embedding of [src/services/api.ts] and of the [Chatbot]
    component, with the properties of the specification stated over it.

    - [JS] holds the few pieces of JavaScript the code leans on: JSON
      values, truthiness, [??], [String(...)], [Number(...)].
    - [Api] embeds [api.ts]: module state, [localStorage], [fetch] against
      an arbitrary server, and the functions [loadTokens] ... [sendChat].
    - [Store] embeds the token store and the login of [api.ts] once more,
      with a [localStorage] whose calls may throw and with the numbers of
      the engine.
    - [Chatbot] embeds the reply normalizer of [sendPrompt] and the
      pagination of [renderProperties] / [showMore]; [ChatbotUi] the
      handlers of the component.

    Scope of the model.  One call of the module runs at a time: nothing
    else touches the module variables or [localStorage] between the
    awaits of a call.  In [Api], [localStorage] is a map that takes every
    read and write, so the [try] blocks of the token store run to their
    end, and numbers are whole; [Store] drops both assumptions.  Console
    logging is left out. *)

From Stdlib Require Import ZArith String Ascii List Lia.
From Stdlib Require Import DecimalString DecimalZ DecimalPos.
From stdpp Require Import gmap strings list.

Set Warnings "-register-all".
Local Open Scope Z_scope.
Local Open Scope string_scope.
Local Open Scope list_scope.

(* ===================================================================== *)
(** * JavaScript values                                                   *)
(* ===================================================================== *)

Module JS.

(** JS numbers are modelled on the integers: epoch milliseconds, seconds,
    status codes and list lengths are all whole numbers well inside the
    range where a double is exact.  [NaN] is what [Number] gives for text
    that is not a number. *)
Inductive number :=
  | Num (z : Z)
  | NaN.

(** [String(n)] for a number: decimal digits, a leading "-" when negative. *)
Definition String_of_Z (z : Z) : string :=
  NilZero.string_of_int (Z.to_int z).

Definition String_of_number (n : number) : string :=
  match n with
  | Num z => String_of_Z z
  | NaN => "NaN"
  end.

(** [Number(s)] for a string, on optionally signed decimal integers (what
    [String] writes); any other text reads as [NaN]. *)
Definition Number (s : string) : number :=
  match NilZero.int_of_string s with
  | Some d => Num (Z.of_int d)
  | None => NaN
  end.

(** [a < b] on numbers: every comparison with [NaN] is false. *)
Definition lt (a b : number) : bool :=
  match a, b with
  | Num x, Num y => Z.ltb x y
  | _, _ => false
  end.

(** Truthiness of a string: the empty string is the only falsy one. *)
Definition truthy_string (s : string) : bool :=
  match s with
  | EmptyString => false
  | String _ _ => true
  end.

(** [a || b] on strings. *)
Definition or_string (a b : string) : string :=
  if truthy_string a then a else b.

(** [s.slice(0, n)], a character of the model standing for a UTF-16 unit. *)
Definition slice0 (n : nat) (s : string) : string := substring 0 n s.

(** A value as [JSON.parse] builds it, with [undefined] added for absent
    properties.  An object is its table of own properties. *)
Inductive value :=
  | VUndefined
  | VNull
  | VBool (b : bool)
  | VNum (z : Z)
  | VStr (s : string)
  | VArr (items : list value)
  | VObj (props : list (string * value)).

(** First binding of a key in a property table. *)
Fixpoint assoc (k : string) (props : list (string * value)) : option value :=
  match props with
  | [] => None
  | (k', v) :: rest => if String.eqb k k' then Some v else assoc k rest
  end.

(** [o?.k]: property read; [undefined] on anything that is not an object
    with that key (primitives, arrays, [null], [undefined]). *)
Definition get (k : string) (o : value) : value :=
  match o with
  | VObj props => match assoc k props with Some v => v | None => VUndefined end
  | _ => VUndefined
  end.

(** ['k' in o], for an object. *)
Definition has (k : string) (o : value) : bool :=
  match o with
  | VObj props => match assoc k props with Some _ => true | None => false end
  | _ => false
  end.

Definition isArray (v : value) : bool :=
  match v with VArr _ => true | _ => false end.

Definition is_string (v : value) : bool :=
  match v with VStr _ => true | _ => false end.

(** [typeof v === 'object']: objects, arrays and [null]. *)
Definition typeof_object (v : value) : bool :=
  match v with VObj _ | VArr _ | VNull => true | _ => false end.

Definition nullish (v : value) : bool :=
  match v with VUndefined | VNull => true | _ => false end.

(** [a ?? b]. *)
Definition coalesce (a b : value) : value :=
  if nullish a then b else a.

Definition truthy (v : value) : bool :=
  match v with
  | VUndefined | VNull => false
  | VBool b => b
  | VNum z => negb (Z.eqb z 0)
  | VStr s => truthy_string s
  | VArr _ | VObj _ => true
  end.

(** [xs.join(",")] over already rendered elements. *)
Fixpoint join_comma (xs : list string) : string :=
  match xs with
  | [] => ""
  | [x] => x
  | x :: rest => x +:+ "," +:+ join_comma rest
  end.

(** [String(v)].  An array renders as its elements joined by ",", where
    [null] and [undefined] elements render as nothing; a plain object
    renders as "[object Object]". *)
Fixpoint String_of (v : value) : string :=
  match v with
  | VUndefined => "undefined"
  | VNull => "null"
  | VBool true => "true"
  | VBool false => "false"
  | VNum z => String_of_Z z
  | VStr s => s
  | VArr items =>
      join_comma
        (List.map (fun x => if nullish x then "" else String_of x) items)
  | VObj _ => "[object Object]"
  end.

(** Where [String_of] is [String].  [String(v)] throws a TypeError when
    [v] is, or an array holds at some depth, an object with an own
    property [toString]: that property of a parsed object is never
    callable, and the inherited [valueOf] gives no primitive.  A number
    prints as its digits when it is a whole number below 2^53 in absolute
    value.  [printable v] holds when no object inside [v] has an own
    [toString] and every number inside [v] is in that range. *)
Fixpoint printable (v : value) : bool :=
  match v with
  | VNum z => Z.ltb (Z.abs z) (2 ^ 53)
  | VArr items => forallb printable items
  | VObj props =>
      forallb (fun kv => let '(k, x) := kv in
                         negb (String.eqb k "toString") && printable x) props
  | _ => true
  end.

End JS.

(* ===================================================================== *)
(** * services/api.ts                                                     *)
(* ===================================================================== *)

Module Api.
Import JS.

(** ** The world around the module *)

(** The options object handed to [fetch].  A field is [None] when the key
    is absent. *)
Record RequestInit := {
  method : option string;
  headers : option (list (string * string));
  body : option string
}.

Record Request := {
  url : string;
  options : RequestInit
}.

(** A response: its status and the text of its body ([None] when reading
    the body fails). *)
Record Response := {
  status : Z;
  text : option string
}.

(** [res.ok]: the status is in the range 200-299. *)
Definition ok (res : Response) : bool :=
  Z.leb 200 (status res) && Z.leb (status res) 299.

(** How a [fetch] settles: the promise rejects (network failure) or a
    response arrives; [settled_at] is what [Date.now()] reads afterwards. *)
Inductive Reply :=
  | NetworkFailure
  | Responds (res : Response).

Record Settled := {
  reply : Reply;
  settled_at : Z
}.

Record TokenBundle := {
  access_token : string;
  refresh_token : string;
  expires_in : option Z (* seconds *)
}.

(** What [/auth/refresh] answers: [{ access_token, token_type?, expires_in? }]. *)
Record AccessGrant := {
  grant_access_token : string;
  grant_expires_in : option Z
}.

(** Everything the module takes from outside: the build-time environment
    ([import.meta.env]), the server behind [fetch] (any function of the
    requests sent so far, the last one being the current request), and the
    built-ins [JSON.parse], [JSON.stringify], [URLSearchParams].  The casts
    [(await res.json()) as TokenBundle] are unchecked in the source: the
    body is read at the declared type, [None] when it is not JSON. *)
Class Browser := {
  VITE_API_BASE_URL : option string;
  VITE_API_AUTH_TOKEN : option string;
  VITE_API_USERNAME : option string;
  VITE_API_PASSWORD : option string;
  server : list Request -> Settled;
  JSON_parse : string -> option value;
  JSON_stringify : value -> string;
  json_as_TokenBundle : string -> option TokenBundle;
  json_as_AccessGrant : string -> option AccessGrant;
  URLSearchParams_toString : list (string * string) -> string
}.

(** [v || d] for an environment variable or a storage entry, which is a
    string or missing. *)
Definition or_default (v : option string) (d : string) : string :=
  match v with
  | Some s => or_string s d
  | None => d
  end.

(** What a promise settles to: a value, or an exception.  [Error m] is an
    exception the module itself makes with [new Error(m)]; the other three
    are exceptions of the engine, told apart by where they come from (to
    JavaScript they are Error objects too, with a message of their own). *)
Inductive Exn :=
  | Error (message : string)   (* [new Error(message)] *)
  | FetchFailed                (* [fetch] rejected *)
  | BodyFailed                 (* reading the body rejected *)
  | SyntaxError.               (* the body is not JSON *)

Inductive Completion (A : Type) :=
  | Resolved (a : A)
  | Rejected (e : Exn).
Arguments Resolved {A} a.
Arguments Rejected {A} e.

Section Client.
Context `{Browser}.

Definition BASE_URL : string := or_default VITE_API_BASE_URL "http://127.0.0.1:8000".
Definition STATIC_BEARER : string := or_default VITE_API_AUTH_TOKEN "".
Definition API_USERNAME : string := or_default VITE_API_USERNAME "".
Definition API_PASSWORD : string := or_default VITE_API_PASSWORD "".

(** ** Module state *)

(** Which [fetch] of the module sent a request. *)
Inductive Site :=
  | AtLogin
  | AtRefresh
  | AtDoFetch.

(** The three module variables, [localStorage], the clock, and the
    requests sent so far, oldest first. *)
Record State := {
  ACCESS_TOKEN : string;
  REFRESH_TOKEN : string;
  ACCESS_EXPIRES_AT : number; (* epoch ms *)
  localStorage : gmap string string;
  Date_now : Z;
  sent : list (Site * Request)
}.

(** The module as loaded: [''], [''], [15]. *)
Definition initial (storage : gmap string string) (now : Z) : State :=
  {| ACCESS_TOKEN := ""; REFRESH_TOKEN := ""; ACCESS_EXPIRES_AT := Num 15;
     localStorage := storage; Date_now := now; sent := [] |}.

Definition getItem (k : string) (s : State) : option string :=
  localStorage s !! k.

Definition setItem (k v : string) (s : State) : State :=
  {| ACCESS_TOKEN := ACCESS_TOKEN s; REFRESH_TOKEN := REFRESH_TOKEN s;
     ACCESS_EXPIRES_AT := ACCESS_EXPIRES_AT s;
     localStorage := <[k := v]> (localStorage s);
     Date_now := Date_now s; sent := sent s |}.

Definition set_tokens (a r : string) (e : number) (s : State) : State :=
  {| ACCESS_TOKEN := a; REFRESH_TOKEN := r; ACCESS_EXPIRES_AT := e;
     localStorage := localStorage s; Date_now := Date_now s; sent := sent s |}.

(** The in-memory token state. *)
Definition tokens (s : State) : string * string * number :=
  (ACCESS_TOKEN s, REFRESH_TOKEN s, ACCESS_EXPIRES_AT s).

(** ** Token store *)

(** [loadTokens]: the three reads come first, then the three assignments. *)
Definition loadTokens (s : State) : State :=
  let a := or_default (getItem "cb_access_token" s) "" in
  let r := or_default (getItem "cb_refresh_token" s) "" in
  let e := Number (or_default (getItem "cb_access_expires_at" s) "0") in
  set_tokens a r e s.

(** [saveTokens]: memory first, then the three writes to storage. *)
Definition saveTokens (bundle : TokenBundle) (s : State) : State :=
  let now := Date_now s in
  let ttl := (match expires_in bundle with Some n => n | None => 60 * 15 end) * 1000 in
  let s := set_tokens (access_token bundle) (refresh_token bundle)
             (Num (now + ttl - 5000)) s in
  let s := setItem "cb_access_token" (ACCESS_TOKEN s) s in
  let s := setItem "cb_refresh_token" (REFRESH_TOKEN s) s in
  setItem "cb_access_expires_at" (String_of_number (ACCESS_EXPIRES_AT s)) s.

(** The requests a step issued: what [sent] holds after it beyond what
    it held before. *)
Definition issued (before after : State) : list (Site * Request) :=
  drop (length (sent before)) (sent after).

Definition is_doFetch (e : Site * Request) : bool :=
  match fst e with AtDoFetch => true | _ => false end.

(** The requests [doFetch] sent, among some events. *)
Definition doFetches (evs : list (Site * Request)) : list Request :=
  List.map snd (List.filter is_doFetch evs).

(** ** Promises

    An [async] function is a state transformer that settles: it resolves
    with a value or rejects with an exception.  State changes made before
    a rejection stay. *)

Definition Async (A : Type) : Type := State -> Completion A * State.

Definition ret {A} (a : A) : Async A := fun s => (Resolved a, s).

Definition throw {A} (e : Exn) : Async A := fun s => (Rejected e, s).

Definition bind {A B} (m : Async A) (k : A -> Async B) : Async B :=
  fun s =>
    match m s with
    | (Resolved a, s') => k a s'
    | (Rejected e, s') => (Rejected e, s')
    end.

Notation "x <- m ;; k" := (bind m (fun x => k))
  (at level 100, m at next level, right associativity).
Notation "m ;;; k" := (bind m (fun _ => k))
  (at level 100, right associativity).

(** [m.catch(() => {})]. *)
Definition catch_ignore {A} (m : Async A) : Async unit :=
  fun s => (Resolved tt, snd (m s)).

Definition gets {A} (f : State -> A) : Async A := fun s => (Resolved (f s), s).

Definition modify (f : State -> State) : Async unit := fun s => (Resolved tt, f s).

(** [fetch(url, options)]: the request is recorded, the server settles it,
    the clock moves to the settling time. *)
Definition fetch (site : Site) (req : Request) : Async Response :=
  fun s =>
    let log := sent s ++ [(site, req)] in
    let r := server (List.map snd log) in
    let s' := {| ACCESS_TOKEN := ACCESS_TOKEN s; REFRESH_TOKEN := REFRESH_TOKEN s;
                 ACCESS_EXPIRES_AT := ACCESS_EXPIRES_AT s;
                 localStorage := localStorage s;
                 Date_now := settled_at r; sent := log |} in
    match reply r with
    | NetworkFailure => (Rejected FetchFailed, s')
    | Responds res => (Resolved res, s')
    end.

(** [res.text()]. *)
Definition res_text (res : Response) : Async string :=
  match text res with
  | Some t => ret t
  | None => throw BodyFailed
  end.

(** [res.json()] read at type [T]. *)
Definition res_json {T} (decode : string -> option T) (res : Response) : Async T :=
  match text res with
  | Some t => match decode t with
              | Some v => ret v
              | None => throw SyntaxError
              end
  | None => throw BodyFailed
  end.

Definition json_headers : list (string * string) :=
  [("Content-Type", "application/json")].

(** ** Login and refresh *)

Definition login_request : Request :=
  {| url := BASE_URL +:+ "/auth/login";
     options :=
       {| method := Some "POST";
          headers := Some json_headers;
          body := Some (JSON_stringify
                    (VObj [("username", VStr API_USERNAME);
                           ("password", VStr API_PASSWORD)])) |} |}.

Definition refresh_request (tok : string) : Request :=
  {| url := BASE_URL +:+ "/auth/refresh";
     options :=
       {| method := Some "POST";
          headers := Some json_headers;
          body := Some (JSON_stringify (VObj [("refresh_token", VStr tok)])) |} |}.

Definition loginIfNeeded : Async unit :=
  if truthy_string STATIC_BEARER then
    now <- gets Date_now;;
    modify (fun s => set_tokens STATIC_BEARER (REFRESH_TOKEN s) (Num (now + 3600000)) s)
  else
    modify loadTokens;;;
    tok <- gets ACCESS_TOKEN;;
    now <- gets Date_now;;
    exp <- gets ACCESS_EXPIRES_AT;;
    if truthy_string tok && lt (Num now) exp then ret tt
    else if negb (truthy_string API_USERNAME) || negb (truthy_string API_PASSWORD)
    then ret tt
    else
      res <- fetch AtLogin login_request;;
      if negb (ok res)
      then throw (Error ("Auth login failed: HTTP " +:+ String_of_Z (status res)))
      else
        data <- res_json json_as_TokenBundle res;;
        modify (saveTokens data).

Definition refreshIfPossible : Async bool :=
  tok <- gets REFRESH_TOKEN;;
  if negb (truthy_string tok) then ret false
  else
    res <- fetch AtRefresh (refresh_request tok);;
    if negb (ok res) then ret false
    else
      data <- res_json json_as_AccessGrant res;;
      modify (fun s =>
        saveTokens {| access_token := grant_access_token data;
                      refresh_token := REFRESH_TOKEN s;
                      expires_in := grant_expires_in data |} s);;;
      ret true.

(** The username or the password is missing. *)
Definition credentials_missing : Prop :=
  API_USERNAME = "" \/ API_PASSWORD = "".

(** ** http *)

(** The object literal [{ headers: hs, ...init }]: the keys of [init] come
    last, so a [headers] key of [init] replaces [hs]. *)
Definition spread_init (hs : list (string * string)) (init : option RequestInit)
  : RequestInit :=
  match init with
  | None => {| method := None; headers := Some hs; body := None |}
  | Some i =>
      {| method := method i;
         headers := match headers i with Some h => Some h | None => Some hs end;
         body := body i |}
  end.

(** The headers [doFetch] builds from the access token. *)
Definition auth_headers (tok : string) : list (string * string) :=
  json_headers ++
  (if truthy_string tok then [("Authorization", "Bearer " +:+ tok)] else []).

(** The call [fetch(url, { headers: {...}, ...init })] of [doFetch], for
    the access token [tok] of the moment. *)
Definition target_request (url_ : string) (init : option RequestInit) (tok : string)
  : Request :=
  {| url := url_; options := spread_init (auth_headers tok) init |}.

Definition doFetch (url_ : string) (init : option RequestInit) : Async Response :=
  tok <- gets ACCESS_TOKEN;;
  fetch AtDoFetch (target_request url_ init tok).

(** The value of a header in a headers object. *)
Fixpoint header (k : string) (hs : list (string * string)) : option string :=
  match hs with
  | [] => None
  | (k', v) :: rest => if String.eqb k k' then Some v else header k rest
  end.

(** What the specification asks of a request sent while the access token
    is [tok]: Content-Type is application/json, and Authorization is
    "Bearer " followed by [tok] when [tok] is not empty, absent when it is. *)
Definition carries_token (tok : string) (req : Request) : Prop :=
  exists hs : list (string * string),
    headers (options req) = Some hs /\
    header "Content-Type" hs = Some "application/json" /\
    (tok <> "" -> header "Authorization" hs = Some ("Bearer " +:+ tok)) /\
    (tok = "" -> header "Authorization" hs = None).

(** The [headers] key of the optional [init]. *)
Definition init_headers (init : option RequestInit) : option (list (string * string)) :=
  match init with
  | Some i => headers i
  | None => None
  end.

(** Lines 90-111 of [http]: login, first fetch, refresh and retry on 401.
    It yields the response the rest of [http] works on. *)
Definition http_response (path : string) (init : option RequestInit) : Async Response :=
  catch_ignore loginIfNeeded;;;
  let url_ := BASE_URL +:+ path in
  res <- doFetch url_ init;;
  if Z.eqb (status res) 401 && negb (truthy_string STATIC_BEARER) then
    refreshed <- refreshIfPossible;;
    if refreshed : bool then doFetch url_ init else ret res
  else ret res.

(** Lines 112-131 of [http]: error for a response that is not ok, the
    empty object for an empty body, the parsed body otherwise. *)
Definition http_result (res : Response) : Async value :=
  if negb (ok res) then
    let detail :=
      match text res with
      | Some txt => or_string (slice0 500 txt) ""
      | None => ""
      end in
    throw (Error ("HTTP " +:+ String_of_Z (status res) +:+
                  (if truthy_string detail then ": " +:+ detail else "")))
  else
    txt <- res_text res;;
    if negb (truthy_string txt) then ret (VObj [])
    else match JSON_parse txt with
         | Some json => ret json
         | None => throw (Error "Invalid JSON response")
         end.

Definition http (path : string) (init : option RequestInit) : Async value :=
  res <- http_response path init;;
  http_result res.

(** ** Exported calls *)

Definition getChatbotOptions : Async value :=
  http "/chatbot/get-chatbot-options" None.

Definition propertySearch (query : list (string * value)) : Async value :=
  let usp := URLSearchParams_toString
               (List.map (fun kv => (fst kv, String_of (snd kv))) query) in
  let qs := if truthy_string usp then "?" +:+ usp else "" in
  http ("/chatbot/property-search" +:+ qs) None.

Definition post (payload : value) : option RequestInit :=
  Some {| method := Some "POST"; headers := None;
          body := Some (JSON_stringify payload) |}.

Definition extractParams (message : string) : Async value :=
  http "/chatbot/extract-params" (post (VObj [("message", VStr message)])).

Record ChatBody := {
  user_id : string;
  prompt : string;
  property_data : option value
}.

Definition ChatBody_value (b : ChatBody) : value :=
  VObj ([("user_id", VStr (user_id b)); ("prompt", VStr (prompt b))] ++
        match property_data b with
        | Some d => [("property_data", d)]
        | None => []
        end).

(** The [.then] callback of [sendChat]. *)
Definition unwrap_data (resp : value) : value :=
  if truthy resp && typeof_object resp && has "data" resp
  then get "data" resp
  else resp.

(** The reply is an object, not [null], with a key [data] of value [d]. *)
Definition wraps_data (reply d : value) : Prop :=
  exists props, reply = VObj props /\ assoc "data" props = Some d.

Definition sendChat (b : ChatBody) : Async value :=
  resp <- http "/chatbot" (post (ChatBody_value b));;
  ret (unwrap_data resp).

(** ** The exported calls as one type *)

Inductive Call :=
  | GetChatbotOptions
  | PropertySearch (query : list (string * value))
  | ExtractParams (message : string)
  | SendChat (b : ChatBody).

Definition run (c : Call) : Async value :=
  match c with
  | GetChatbotOptions => getChatbotOptions
  | PropertySearch query => propertySearch query
  | ExtractParams message => extractParams message
  | SendChat b => sendChat b
  end.

(** A state [s'] holds, under every key but the three of the token store,
    what [s] holds. *)
Definition same_elsewhere (s s' : State) : Prop :=
  forall k : string,
    k <> "cb_access_token" -> k <> "cb_refresh_token" ->
    k <> "cb_access_expires_at" ->
    getItem k s' = getItem k s.

End Client.

(** ** Logging helper *)

(** [t.slice(-n)]. *)
Definition slice_last (n : nat) (t : string) : string :=
  substring (String.length t - n) n t.

Definition maskToken (t : option string) : string :=
  match t with
  | None => ""
  | Some t =>
      if negb (truthy_string t) then ""
      else if (String.length t <=? 8)%nat then "****"
      else slice0 4 t +:+ "…" +:+ slice_last 4 t
  end.

End Api.

(* ===================================================================== *)
(** * services/api.ts: the token store and the login in full             *)
(* ===================================================================== *)

(** [Api] runs the module in a browser whose [localStorage] takes every
    read and write and whose numbers are whole.  [Store] embeds
    [loadTokens], [saveTokens] and [loginIfNeeded] once more without
    these two assumptions: a call of [localStorage] may throw, which the
    [try] blocks of the token store catch, and the numbers are those of
    the engine, with its own arithmetic, [String] and [Number]. *)
Module Store.
Import JS Api.

(** The numbers of the engine (doubles) and what the module does with
    them. *)
Class Numbers := {
  double : Type;
  of_Z : Z -> double;                     (* a whole-number literal *)
  add : double -> double -> double;       (* [a + b] *)
  sub : double -> double -> double;       (* [a - b] *)
  mul : double -> double -> double;       (* [a * b] *)
  before : double -> double -> bool;      (* [a < b] *)
  String_of_double : double -> string;    (* [String(a)] *)
  Number_of : string -> double            (* [Number(s)] *)
}.

Record TokenBundle `{Numbers} := {
  access_token : string;
  refresh_token : string;
  expires_in : option double (* seconds *)
}.

(** Everything the three functions take from outside: the build-time
    environment, the server behind [fetch] (it settles a request, given
    those sent so far, the current one last, with a reply and the time
    [Date.now()] reads afterwards), [JSON.stringify], the unchecked cast
    [(await res.json()) as TokenBundle], and [localStorage]: whether a
    [getItem] of a key, or a [setItem] of a key and a value, throws on the
    storage as it is. *)
Class World `{Numbers} := {
  VITE_API_BASE_URL : option string;
  VITE_API_AUTH_TOKEN : option string;
  VITE_API_USERNAME : option string;
  VITE_API_PASSWORD : option string;
  server : list Request -> Reply * double;
  JSON_stringify : value -> string;
  json_as_TokenBundle : string -> option TokenBundle;
  getItem_throws : gmap string string -> string -> bool;
  setItem_throws : gmap string string -> string -> string -> bool
}.

Section Store.
Context `{World}.

Definition BASE_URL : string := or_default VITE_API_BASE_URL "http://127.0.0.1:8000".
Definition STATIC_BEARER : string := or_default VITE_API_AUTH_TOKEN "".
Definition API_USERNAME : string := or_default VITE_API_USERNAME "".
Definition API_PASSWORD : string := or_default VITE_API_PASSWORD "".

(** The three module variables, [localStorage], the clock, and the
    requests sent so far, oldest first. *)
Record State := {
  ACCESS_TOKEN : string;
  REFRESH_TOKEN : string;
  ACCESS_EXPIRES_AT : double; (* epoch ms *)
  localStorage : gmap string string;
  Date_now : double;
  sent : list Request
}.

(** The module as loaded: [''], [''], [15]. *)
Definition initial (storage : gmap string string) (now : double) : State :=
  {| ACCESS_TOKEN := ""; REFRESH_TOKEN := ""; ACCESS_EXPIRES_AT := of_Z 15;
     localStorage := storage; Date_now := now; sent := [] |}.

(** [localStorage.getItem(k)]: [None] when the call throws, else the
    entry, which is a string or [null]. *)
Definition getItem (k : string) (s : State) : option (option string) :=
  if getItem_throws (localStorage s) k then None else Some (localStorage s !! k).

(** [localStorage.setItem(k, v)]: [None] when the call throws, and
    nothing is written then. *)
Definition setItem (k v : string) (s : State) : option State :=
  if setItem_throws (localStorage s) k v then None
  else Some {| ACCESS_TOKEN := ACCESS_TOKEN s; REFRESH_TOKEN := REFRESH_TOKEN s;
               ACCESS_EXPIRES_AT := ACCESS_EXPIRES_AT s;
               localStorage := <[k := v]> (localStorage s);
               Date_now := Date_now s; sent := sent s |}.

Definition set_tokens (a r : string) (e : double) (s : State) : State :=
  {| ACCESS_TOKEN := a; REFRESH_TOKEN := r; ACCESS_EXPIRES_AT := e;
     localStorage := localStorage s; Date_now := Date_now s; sent := sent s |}.

(** The in-memory token state. *)
Definition tokens (s : State) : string * string * double :=
  (ACCESS_TOKEN s, REFRESH_TOKEN s, ACCESS_EXPIRES_AT s).

(** [loadTokens]: the three reads come first, then the three
    assignments; a read that throws leaves the [try] block before any
    assignment, and the [catch] does nothing. *)
Definition loadTokens (s : State) : State :=
  match getItem "cb_access_token" s with
  | None => s
  | Some a =>
      match getItem "cb_refresh_token" s with
      | None => s
      | Some r =>
          match getItem "cb_access_expires_at" s with
          | None => s
          | Some e =>
              set_tokens (or_default a "") (or_default r "")
                         (Number_of (or_default e "0")) s
          end
      end
  end.

(** [saveTokens]: the three assignments come first, outside the [try];
    then the three writes, of which the first that throws ends the [try]
    block, the later ones not being made. *)
Definition saveTokens (bundle : TokenBundle) (s : State) : State :=
  let now := Date_now s in
  let ttl := mul (match expires_in bundle with
                  | Some n => n
                  | None => of_Z (60 * 15)
                  end) (of_Z 1000) in
  let s1 := set_tokens (access_token bundle) (refresh_token bundle)
              (sub (add now ttl) (of_Z 5000)) s in
  match setItem "cb_access_token" (ACCESS_TOKEN s1) s1 with
  | None => s1
  | Some s2 =>
      match setItem "cb_refresh_token" (REFRESH_TOKEN s2) s2 with
      | None => s2
      | Some s3 =>
          match setItem "cb_access_expires_at"
                        (String_of_double (ACCESS_EXPIRES_AT s3)) s3 with
          | None => s3
          | Some s4 => s4
          end
      end
  end.

(** [fetch(url, options)]: the request is recorded, the server settles
    it, the clock moves to the settling time. *)
Definition fetch (req : Request) (s : State) : Completion Response * State :=
  let log := sent s ++ [req] in
  let s' := {| ACCESS_TOKEN := ACCESS_TOKEN s; REFRESH_TOKEN := REFRESH_TOKEN s;
               ACCESS_EXPIRES_AT := ACCESS_EXPIRES_AT s;
               localStorage := localStorage s;
               Date_now := snd (server log); sent := log |} in
  match fst (server log) with
  | NetworkFailure => (Rejected FetchFailed, s')
  | Responds res => (Resolved res, s')
  end.

(** The requests a step issued. *)
Definition issued (before_ after : State) : list Request :=
  drop (length (sent before_)) (sent after).

Definition loginIfNeeded (s : State) : Completion unit * State :=
  if truthy_string STATIC_BEARER then
    (Resolved tt,
     set_tokens STATIC_BEARER (REFRESH_TOKEN s) (add (Date_now s) (of_Z 3600000)) s)
  else
    let s := loadTokens s in
    if truthy_string (ACCESS_TOKEN s) && before (Date_now s) (ACCESS_EXPIRES_AT s)
    then (Resolved tt, s)
    else if negb (truthy_string API_USERNAME) || negb (truthy_string API_PASSWORD)
    then (Resolved tt, s)
    else
      match fetch
              {| url := BASE_URL +:+ "/auth/login";
                 options :=
                   {| method := Some "POST";
                      headers := Some [("Content-Type", "application/json")];
                      body := Some (JSON_stringify
                                (VObj [("username", VStr API_USERNAME);
                                       ("password", VStr API_PASSWORD)])) |} |} s with
      | (Rejected e, s) => (Rejected e, s)
      | (Resolved res, s) =>
          if negb (ok res)
          then (Rejected (Error ("Auth login failed: HTTP " +:+
                                 String_of_Z (status res))), s)
          else
            match text res with
            | None => (Rejected BodyFailed, s)
            | Some t =>
                match json_as_TokenBundle t with
                | None => (Rejected SyntaxError, s)
                | Some data => (Resolved tt, saveTokens data s)
                end
            end
      end.

(** ** The words of the specification *)

(** [localStorage] lets [loadTokens] make its three reads. *)
Definition reads_accepted (s : State) : Prop :=
  getItem_throws (localStorage s) "cb_access_token" = false /\
  getItem_throws (localStorage s) "cb_refresh_token" = false /\
  getItem_throws (localStorage s) "cb_access_expires_at" = false.

(** [localStorage] takes the three writes [saveTokens] makes of the
    access token [a], the refresh token [r] and the expiry text [e], one
    after the other. *)
Definition writes_accepted (a r e : string) (s : State) : Prop :=
  let m0 := localStorage s in
  let m1 := <["cb_access_token" := a]> m0 in
  let m2 := <["cb_refresh_token" := r]> m1 in
  setItem_throws m0 "cb_access_token" a = false /\
  setItem_throws m1 "cb_refresh_token" r = false /\
  setItem_throws m2 "cb_access_expires_at" e = false.

(** The expiry of a bundle saved when the clock reads [now]: the save
    time plus [expires_in] (900 seconds when there is none) times 1000,
    minus 5000. *)
Definition expiry_of (bundle : TokenBundle) (now : double) : double :=
  let seconds := match expires_in bundle with Some n => n | None => of_Z 900 end in
  sub (add now (mul seconds (of_Z 1000))) (of_Z 5000).

(** An access token is held and the clock is before the expiry held
    with it. *)
Definition token_fresh (s : State) : Prop :=
  ACCESS_TOKEN s <> "" /\ before (Date_now s) (ACCESS_EXPIRES_AT s) = true.

Definition credentials_missing : Prop :=
  API_USERNAME = "" \/ API_PASSWORD = "".

(** The login request, in the words of the specification: the
    credentials, as JSON, POSTed to [/auth/login]. *)
Definition credentials_post : Request :=
  {| url := BASE_URL +:+ "/auth/login";
     options :=
       {| method := Some "POST";
          headers := Some [("Content-Type", "application/json")];
          body := Some (JSON_stringify
                    (VObj [("username", VStr API_USERNAME);
                           ("password", VStr API_PASSWORD)])) |} |}.

End Store.

End Store.

(** The browser of [Api] as a world of [Store]: the numbers are whole,
    [localStorage] takes every call. *)
Module Whole.
Import JS Api Store.

Definition lift2 (f : Z -> Z -> Z) (a b : JS.number) : JS.number :=
  match a, b with
  | Num x, Num y => Num (f x y)
  | _, _ => NaN
  end.

#[export] Instance whole : Numbers :=
  {| double := JS.number;
     of_Z := Num;
     add := lift2 Z.add;
     sub := lift2 Z.sub;
     mul := lift2 Z.mul;
     before := JS.lt;
     String_of_double := String_of_number;
     Number_of := JS.Number |}.

Definition bundle_of (b : Api.TokenBundle) : Store.TokenBundle :=
  {| Store.access_token := Api.access_token b;
     Store.refresh_token := Api.refresh_token b;
     Store.expires_in := option_map Num (Api.expires_in b) |}.

Section Accepting.
Context `{Browser}.

Definition accepting : World :=
  {| Store.VITE_API_BASE_URL := Api.VITE_API_BASE_URL;
     Store.VITE_API_AUTH_TOKEN := Api.VITE_API_AUTH_TOKEN;
     Store.VITE_API_USERNAME := Api.VITE_API_USERNAME;
     Store.VITE_API_PASSWORD := Api.VITE_API_PASSWORD;
     Store.server := fun reqs =>
       (reply (Api.server reqs), Num (settled_at (Api.server reqs)));
     Store.JSON_stringify := Api.JSON_stringify;
     Store.json_as_TokenBundle := fun t =>
       option_map bundle_of (Api.json_as_TokenBundle t);
     getItem_throws := fun _ _ => false;
     setItem_throws := fun _ _ _ => false |}.

Definition state_of (s : Api.State) : Store.State :=
  {| Store.ACCESS_TOKEN := Api.ACCESS_TOKEN s;
     Store.REFRESH_TOKEN := Api.REFRESH_TOKEN s;
     Store.ACCESS_EXPIRES_AT := Api.ACCESS_EXPIRES_AT s;
     Store.localStorage := Api.localStorage s;
     Store.Date_now := Num (Api.Date_now s);
     Store.sent := List.map snd (Api.sent s) |}.

End Accepting.

End Whole.

(* ===================================================================== *)
(** * The Chatbot component                                               *)
(* ===================================================================== *)

Module Chatbot.
Import JS.

Record QuickButton := {
  label : string;
  value_ : string   (* the field [value] *)
}.

(** ** Reply normalizer (in [sendPrompt]) *)

Definition first_is_string (items : list value) : bool :=
  match items with
  | x :: _ => is_string x
  | [] => false
  end.

(** [o?.label ?? o?.text ?? o?.name ?? o?.title ?? o?.value ?? o?.id ?? '']:
    [??] associates to the left. *)
Definition label_of (o : value) : value :=
  coalesce (coalesce (coalesce (coalesce (coalesce (coalesce
    (get "label" o) (get "text" o)) (get "name" o)) (get "title" o))
    (get "value" o)) (get "id" o)) (VStr "").

(** [o?.value ?? o?.id ?? o?.label ?? o?.text ?? o?.name ?? '']. *)
Definition value_of (o : value) : value :=
  coalesce (coalesce (coalesce (coalesce (coalesce
    (get "value" o) (get "id" o)) (get "label" o)) (get "text" o))
    (get "name" o)) (VStr "").

Definition normalizeOptions (arr : value) : list QuickButton :=
  match arr with
  | VArr items =>
      if first_is_string items then
        List.map (fun s => {| label := String_of s; value_ := String_of s |}) items
      else
        List.map (fun o => {| label := String_of (label_of o);
                              value_ := String_of (value_of o) |}) items
  | _ => []
  end.

Definition rawButtons (resp : value) : value :=
  if isArray (get "buttons" resp) then get "buttons" resp
  else if isArray (get "options" resp) then get "options" resp
  else if isArray (get "choices" resp) then get "choices" resp
  else VNull.

Definition rawDropdown (resp : value) : value :=
  if isArray (get "dropdown" resp) then get "dropdown" resp
  else if isArray (get "select_options" resp) then get "select_options" resp
  else VNull.

(** [raw ? normalizeOptions(raw) : null]. *)
Definition normalized (raw : value) : option (list QuickButton) :=
  if truthy raw then Some (normalizeOptions raw) else None.

Definition buttons_of (resp : value) : option (list QuickButton) :=
  normalized (rawButtons resp).

Definition dropdown_of (resp : value) : option (list QuickButton) :=
  normalized (rawDropdown resp).

(** The words of the specification: the first of the named fields of the
    reply that is an array; the first of some candidates that is defined
    (neither [undefined] nor [null], as [??] reads it), else the empty
    string. *)
Definition first_array (fields : list string) (resp : value) : option value :=
  List.find isArray (List.map (fun k => get k resp) fields).

Definition first_defined (candidates : list value) : value :=
  match List.find (fun v => negb (nullish v)) candidates with
  | Some v => v
  | None => VStr ""
  end.

(** The uniform {label, value} model, in the words of the specification.
    One option [o] of an array gives one pair: both fields are [String(o)]
    when the array starts with a string; otherwise the label is [String]
    of the first defined of [o.label], [o.text], [o.name], [o.title],
    [o.value], [o.id] and the value [String] of the first defined of
    [o.value], [o.id], [o.label], [o.text], [o.name]. *)
Definition option_model (strings : bool) (o : value) : QuickButton :=
  if strings then {| label := String_of o; value_ := String_of o |}
  else
    {| label := String_of (first_defined
                  [get "label" o; get "text" o; get "name" o; get "title" o;
                   get "value" o; get "id" o]);
       value_ := String_of (first_defined
                  [get "value" o; get "id" o; get "label" o; get "text" o;
                   get "name" o]) |}.

(** The model of a source: nothing without a source, and for a source
    array one pair per element, in the order of the array. *)
Definition uniform_model (source : option value) : option (list QuickButton) :=
  match source with
  | Some (VArr items) => Some (List.map (option_model (first_is_string items)) items)
  | _ => None
  end.

(** ** Messages and property pages *)

(** What [renderProperties] returns: one card per item, in order, then the
    Show More button when [remaining > 0].  The markup of a card is left
    out; a card is the item it shows. *)
Record PropertyPage := {
  cards : list value;
  show_more : option nat   (* "Show More Properties (n more)" *)
}.

Inductive Html :=
  | Markup (s : string)
  | Properties (page : PropertyPage).

Inductive Sender := Bot | You.

(** A message; its [id] (a random UUID) is left out. *)
Record Message := {
  sender : Sender;
  text : string;
  html : option Html;
  buttons : option (list QuickButton);
  dropdown : option (list QuickButton)
}.

Record Pagination := {
  currentPage : nat;
  itemsPerPage : nat
}.

(** The bindings of one render of the component.  [pagination] in the
    body of [showMore] is the constant that [useState] returned in the
    render that created that [showMore]; [setPagination] changes what the
    next render reads, not this constant. *)
Record Render := {
  pagination : Pagination
}.

(** What outlives a render: the message list and the pagination held by
    React, [allPropertiesRef.current], and the [onclick] handler of the
    document's first element with id [chatbot-show-more] (the closure
    [() => showMore()] of some render). *)
Record Ui := {
  messages : list Message;
  pagination_state : Pagination;
  allPropertiesRef : list value;
  show_more_onclick : option Render
}.

Definition initial : Ui :=
  {| messages := [];
     pagination_state := {| currentPage := 1; itemsPerPage := 3 |};
     allPropertiesRef := [];
     show_more_onclick := None |}.

(** A render reads the state React holds. *)
Definition render (ui : Ui) : Render :=
  {| pagination := pagination_state ui |}.

(** [html || null]. *)
Definition html_or_null (h : option Html) : option Html :=
  match h with
  | Some (Markup s) => if truthy_string s then h else None
  | _ => h
  end.

Definition append (who : Sender) (txt : string) (h : option Html)
    (bs dd : option (list QuickButton)) (ui : Ui) : Ui :=
  {| messages := messages ui ++
       [{| sender := who; text := txt; html := html_or_null h;
           buttons := bs; dropdown := dd |}];
     pagination_state := pagination_state ui;
     allPropertiesRef := allPropertiesRef ui;
     show_more_onclick := show_more_onclick ui |}.

Definition appendBot (txt : string) (h : option Html)
    (bs dd : option (list QuickButton)) (ui : Ui) : Ui :=
  append Bot txt h bs dd ui.

Definition appendYou (txt : string) (ui : Ui) : Ui :=
  append You txt None None None ui.

(** [setPagination((p) => ({ ...p, currentPage: n }))]. *)
Definition setCurrentPage (n : nat) (ui : Ui) : Ui :=
  {| messages := messages ui;
     pagination_state := {| currentPage := n;
                            itemsPerPage := itemsPerPage (pagination_state ui) |};
     allPropertiesRef := allPropertiesRef ui;
     show_more_onclick := show_more_onclick ui |}.

Definition setAllProperties (l : list value) (ui : Ui) : Ui :=
  {| messages := messages ui;
     pagination_state := pagination_state ui;
     allPropertiesRef := l;
     show_more_onclick := show_more_onclick ui |}.

(** [xs.slice(start, end)] for [0 <= start], [0 <= end]. *)
Definition slice {A} (start end_ : nat) (xs : list A) : list A :=
  take (end_ - start) (drop start xs).

Definition has_show_more (m : Message) : bool :=
  match html m with
  | Some (Properties p) => match show_more p with Some _ => true | None => false end
  | _ => false
  end.

(** The timer set by [renderProperties] (line 216): once the message is
    in the document, [getElementById('chatbot-show-more')], if it finds a
    button, sets its [onclick] to [() => showMore()], the [showMore] of
    the render [r] whose [renderProperties] set the timer.  Buttons of
    earlier pages stay in the document, and nothing else binds a handler. *)
Definition bind_show_more (r : Render) (ui : Ui) : Ui :=
  if existsb has_show_more (messages ui) then
    {| messages := messages ui;
       pagination_state := pagination_state ui;
       allPropertiesRef := allPropertiesRef ui;
       show_more_onclick := Some r |}
  else ui.

(** [item.varTitle] and the other plain property reads of
    [renderProperties] throw a TypeError on [null] and [undefined]. *)
Definition readable (item : value) : bool := negb (nullish item).

(** The string [renderProperties] returns; [None] when building a card
    throws (the timer is then never set). *)
Definition renderProperties (items : list value) (remaining : nat) : option Html :=
  if forallb readable items then
    Some (Properties
            {| cards := items;
               show_more := if (0 <? remaining)%nat then Some remaining else None |})
  else None.

Definition showMore (r : Render) (ui : Ui) : Ui :=
  let currentPage_ := currentPage (pagination r) in
  let itemsPerPage_ := itemsPerPage (pagination r) in
  let nextPage := (currentPage_ + 1)%nat in
  let start := ((nextPage - 1) * itemsPerPage_)%nat in
  let end_ := Nat.min (start + itemsPerPage_) (length (allPropertiesRef ui)) in
  let next := slice start end_ (allPropertiesRef ui) in
  if (length next =? 0)%nat then ui
  else
    let remaining := (length (allPropertiesRef ui) - end_)%nat in
    match renderProperties next remaining with
    | Some h => bind_show_more r (setCurrentPage nextPage (appendBot "" (Some h) None None ui))
    | None => ui   (* the TypeError leaves the click handler *)
    end.

(** A click on the bound Show More button. *)
Definition click_show_more (ui : Ui) : Ui :=
  match show_more_onclick ui with
  | Some r => showMore r ui
  | None => ui
  end.

(** The property pages in the message list, oldest first. *)
Definition pages (ui : Ui) : list PropertyPage :=
  omap (fun m => match html m with
                 | Some (Properties p) => Some p
                 | _ => None
                 end) (messages ui).

Definition properties_of (data : value) : list value :=
  match get "properties" data with
  | VArr l => l
  | _ => []
  end.

Definition found (count : nat) (tail : string) : string :=
  "Found " +:+ String_of_Z (Z.of_nat count) +:+ " " +:+
  (if (count =? 1)%nat then "property" else "properties") +:+ tail.

(** [renderProperties(list.slice(0, 3), count > 3 ? count - 3 : 0)]. *)
Definition first_page (l : list value) : option Html :=
  let count := length l in
  renderProperties (slice 0 3 l) (if (3 <? count)%nat then count - 3 else 0)%nat.

(** The message of the TypeError, as V8 words it. *)
Definition TypeError_message : string :=
  "Cannot read properties of null (reading 'varTitle')".

(** The [.then] callback of [runPropertySearch], with its [.catch], run
    in render [r]. *)
Definition searchResults (r : Render) (data : value) (ui : Ui) : Ui :=
  let l := properties_of data in
  let ui := setCurrentPage 1 (setAllProperties l ui) in
  if (length l =? 0)%nat then
    appendBot "No properties found for your criteria." None None None ui
  else
    match first_page l with
    | Some h =>
        bind_show_more r
          (appendBot (found (length l) " for your criteria:") (Some h) None None ui)
    | None => appendBot "Failed to fetch property listings." None None None ui
    end.

(** The last part of the [.then] callback of [sendPrompt] (lines 292-301),
    with its [.catch], run in render [r]. *)
Definition promptProperties (r : Render) (resp : value) (ui : Ui) : Ui :=
  let l := properties_of resp in
  let ui := setCurrentPage 1 (setAllProperties l ui) in
  if (0 <? length l)%nat then
    match first_page l with
    | Some h => bind_show_more r (appendBot (found (length l) ":") (Some h) None None ui)
    | None => appendBot TypeError_message None None None ui
    end
  else ui.

End Chatbot.

(* ===================================================================== *)
(** * The Chatbot component: replies, prompts and searches                *)
(* ===================================================================== *)

Module ChatbotUi.
Import JS Api Chatbot.

(** What the component takes from the JavaScript engine: the string
    methods [toLowerCase] and [trim], [(x).toFixed(1)] for a price divided
    by 100000, and the [message] of the exceptions the engine itself
    raises ([exn_message (Error m)] is not used: that message is [m]). *)
Class Engine := {
  toLowerCase : string -> string;
  trim : string -> string;
  price_in_millions : Z -> string;
  exn_message : Exn -> string
}.

(** A well-formed button as the backend sends it. *)
Definition QuickButton_value (q : QuickButton) : value :=
  VObj [("label", VStr (label q)); ("value", VStr (value_ q))].

(** [ui'] has the messages of [ui] and then at most [k] more, all from
    the Bot. *)
Definition bot_suffix (k : nat) (ui ui' : Ui) : Prop :=
  exists new : list Message,
    messages ui' = messages ui ++ new /\ (length new <= k)%nat /\
    Forall (fun m => sender m = Bot) new.

Section Component.
Context `{Browser} `{Engine}.

(** ** The reply of the assistant (lines 236-290 of [sendPrompt]) *)

(** [typeof v === 'string' ? v.toLowerCase() : '']. *)
Definition lower_if_string (v : value) : string :=
  match v with
  | VStr s => toLowerCase s
  | _ => ""
  end.

(** [xs.includes(x)]. *)
Definition includes (xs : list string) (x : string) : bool :=
  existsb (String.eqb x) xs.

(** [bs && bs.length > 0]. *)
Definition nonempty (bs : option (list QuickButton)) : bool :=
  match bs with
  | Some (_ :: _) => true
  | _ => false
  end.

(** [typeof resp?.result === 'string' && resp.result.trim().length > 0],
    with the trimmed result when it holds. *)
Definition shown_result (resp : value) : option string :=
  match get "result" resp with
  | VStr s => if truthy_string (trim s) then Some (trim s) else None
  | _ => None
  end.

(** [resp?.html && resp.html.trim().length > 0]: false, true, or a
    TypeError when [html] is truthy and has no method [trim]. *)
Inductive HtmlTest :=
  | NoHtml
  | HasHtml (s : string)
  | TrimTypeError.

Definition html_test (resp : value) : HtmlTest :=
  let h := get "html" resp in
  if truthy h then
    match h with
    | VStr s => if truthy_string (trim s) then HasHtml s else NoHtml
    | _ => TrimTypeError
    end
  else NoHtml.

(** [resp?.html || null], as the document shows it: [innerHTML] turns a
    value that is not a string into its [String]. *)
Definition html_or_null_of (resp : value) : option Html :=
  let h := get "html" resp in
  if truthy h then Some (Markup (String_of h)) else None.

(** The [html] of a reply is of its declared type, [html?: string], or
    falsy: what [html_or_null_of] keeps is then the string itself. *)
Definition html_is_text (resp : value) : Prop :=
  truthy (get "html" resp) = true -> is_string (get "html" resp) = true.

Definition isDropdown (responseUi : string) : bool :=
  includes ["dropdown"; "select"; "list"; "menu"] responseUi.

Definition isButtons (responseUi : string) : bool :=
  includes ["buttons"; "button"; "quick_replies"; "options"; "chips"] responseUi.

(** The message of the reply; [None] when the TypeError of [html_test]
    ends the callback. *)
Definition replyMessage (resp : value) (ui : Ui) : option Ui :=
  let replyType := lower_if_string (get "type" resp) in
  let responseUi := lower_if_string (get "response_type" resp) in
  let buttons := buttons_of resp in
  let dropdown := dropdown_of resp in
  if String.eqb replyType "onboarding" then
    if isDropdown responseUi && nonempty dropdown then
      Some (appendBot "" None None dropdown ui)
    else if isButtons responseUi && nonempty buttons then
      Some (appendBot "" None buttons None ui)
    else
      match html_test resp with
      | TrimTypeError => None
      | HasHtml s => Some (appendBot "" (Some (Markup s)) buttons None ui)
      | NoHtml =>
          match shown_result resp with
          | Some txt => Some (appendBot txt None buttons None ui)
          | None => Some ui
          end
      end
  else
    match shown_result resp with
    | Some txt =>
        if isButtons responseUi && nonempty buttons
        then Some (appendBot txt (html_or_null_of resp) buttons None ui)
        else Some (appendBot txt (html_or_null_of resp) None None ui)
    | None => Some ui
    end.

(** The message of the TypeError of [html_test], as V8 words it. *)
Definition trim_TypeError_message : string :=
  "resp.html.trim is not a function".

(** The [.then] callback of [sendPrompt] with the part of [.catch] that
    serves it, run in render [r]. *)
Definition promptThen (r : Render) (resp : value) (ui : Ui) : Ui :=
  match replyMessage resp ui with
  | Some ui1 => promptProperties r resp ui1
  | None => appendBot trim_TypeError_message None None None ui
  end.

(** ** Prompts and searches *)

Record SearchState := {
  price : option Z;
  intBeds : option Z;
  city : option string
}.

(** What a render binds besides [pagination]. *)
Record Closure := {
  rendered : Render;
  searchState : SearchState
}.

(** The client, the interface, [userIdRef.current] and the search state
    React holds. *)
Record App := {
  api : Api.State;
  ui : Ui;
  userIdRef : string;
  searchState_state : SearchState
}.

Definition with_ui (f : Ui -> Ui) (app : App) : App :=
  {| api := api app; ui := f (ui app); userIdRef := userIdRef app;
     searchState_state := searchState_state app |}.

Definition with_api (st : Api.State) (app : App) : App :=
  {| api := st; ui := ui app; userIdRef := userIdRef app;
     searchState_state := searchState_state app |}.

(** [err instanceof Error ? err.message : 'Failed to contact assistant.']:
    every exception of the client is an [Error]. *)
Definition message_of (e : Exn) : string :=
  match e with
  | Error m => m
  | _ => exn_message e
  end.

(** The [property_data] of [sendPrompt]. *)
Definition property_data_of (ss : SearchState) : value :=
  VObj (match price ss with Some p => [("price", VNum p)] | None => [] end ++
        match intBeds ss with Some b => [("intBeds", VNum b)] | None => [] end ++
        match city ss with
        | Some c => if truthy_string c then [("location", VStr c)] else []
        | None => []
        end).

Definition sendPrompt (c : Closure) (txt : string) (app : App) : App :=
  let body_ := {| user_id := userIdRef app; prompt := txt;
                  property_data := Some (property_data_of (searchState c)) |} in
  match sendChat body_ (api app) with
  | (Resolved resp, st) => with_ui (promptThen (rendered c) resp) (with_api st app)
  | (Rejected e, st) =>
      with_ui (appendBot (message_of e) None None None) (with_api st app)
  end.

Definition onSend (c : Closure) (input : string) (app : App) : App :=
  let txt := trim input in
  if negb (truthy_string txt) then app
  else sendPrompt c txt (with_ui (appendYou txt) app).

Definition onQuick (c : Closure) (v : string) (app : App) : App :=
  sendPrompt c v (with_ui (appendYou v) app).

(** The [params] of [runPropertySearch], in insertion order: a price or a
    bed count of 0 and an empty city are left out. *)
Definition search_params (ss : SearchState) : list (string * value) :=
  match price ss with
  | Some p => if Z.eqb p 0 then [] else [("price", VNum p)]
  | None => []
  end ++
  match intBeds ss with
  | Some b => if Z.eqb b 0 then [] else [("intBeds", VNum b)]
  | None => []
  end ++
  match city ss with
  | Some c => if truthy_string c then [("location", VStr c)] else []
  | None => []
  end.

Definition searching_text (ss : SearchState) : string :=
  "Searching properties" +:+
  match price ss with
  | Some p => if Z.eqb p 0 then "" else " under CI$" +:+ price_in_millions p +:+ "M"
  | None => ""
  end +:+
  match intBeds ss with
  | Some b => if Z.eqb b 0 then "" else ", " +:+ String_of_Z b +:+ " bedroom(s)"
  | None => ""
  end +:+
  match city ss with
  | Some c => if truthy_string c then " in " +:+ c else ""
  | None => ""
  end +:+ "...".

Definition runPropertySearch (c : Closure) (app : App) : App :=
  let ss := searchState c in
  let app := with_ui (appendBot (searching_text ss) None None None) app in
  match propertySearch (search_params ss) (api app) with
  | (Resolved data, st) =>
      with_ui (searchResults (rendered c) data) (with_api st app)
  | (Rejected e, st) =>
      with_ui (appendBot "Failed to fetch property listings." None None None)
        (with_api st app)
  end.

(** [setSearchState((s) => ({ ...s, city }))]. *)
Definition setCity (c : string) (app : App) : App :=
  {| api := api app; ui := ui app; userIdRef := userIdRef app;
     searchState_state :=
       {| price := price (searchState_state app);
          intBeds := intBeds (searchState_state app);
          city := Some c |} |}.

Definition selectCity (c : Closure) (city_ : string) (app : App) : App :=
  runPropertySearch c (with_ui (appendYou city_) (setCity city_ app)).

(** A render reads the state React holds. *)
Definition render_app (app : App) : Closure :=
  {| rendered := render (ui app); searchState := searchState_state app |}.

(** What the user can do, and the handler each action runs, with the
    bindings [c] of the render that installed the handler. *)
Inductive Action :=
  | Send (input : string)
  | Quick (v : string)
  | City (city_ : string)
  | ShowMore.

Definition perform (c : Closure) (a : Action) (app : App) : App :=
  match a with
  | Send input => onSend c input app
  | Quick v => onQuick c v app
  | City city_ => selectCity c city_ app
  | ShowMore => with_ui click_show_more app
  end.

End Component.
End ChatbotUi.

(* ===================================================================== *)
(** * A concrete world                                                    *)
(* ===================================================================== *)

(** A backend and a search reply to run the definitions on. *)
Module Demo.
Import JS Api Chatbot.

(** The backend answers the n-th request with the n-th line of a script:
    login accepted, the chat call refused with 401, refresh accepted, the
    chat call answered. *)
Definition script : list Response :=
  [ {| status := 200; Api.text := Some "login" |};
    {| status := 401; Api.text := Some "token expired" |};
    {| status := 200; Api.text := Some "refresh" |};
    {| status := 200; Api.text := Some "{}" |} ].

Definition scripted (reqs : list Request) : Settled :=
  {| reply := match script !! (length reqs - 1)%nat with
              | Some res => Responds res
              | None => NetworkFailure
              end;
     settled_at := 1000 * Z.of_nat (length reqs) |}.

#[export] Instance browser : Browser :=
  {| VITE_API_BASE_URL := None;
     VITE_API_AUTH_TOKEN := None;
     VITE_API_USERNAME := Some "agent";
     VITE_API_PASSWORD := Some "secret";
     server := scripted;
     JSON_parse := fun t => if String.eqb t "{}" then Some (VObj []) else None;
     JSON_stringify := fun _ => "{}";
     json_as_TokenBundle := fun t =>
       if String.eqb t "login"
       then Some {| access_token := "a1"; refresh_token := "r1";
                    expires_in := Some 60 |}
       else None;
     json_as_AccessGrant := fun t =>
       if String.eqb t "refresh"
       then Some {| grant_access_token := "a2"; grant_expires_in := None |}
       else None;
     URLSearchParams_toString := fun _ => "" |}.

(** The module freshly loaded, nothing in storage, the clock at 0. *)
Definition fresh : State := Api.initial ∅ 0.

Definition property (i : Z) : value :=
  VObj [("varTitle", VStr "Villa"); ("id", VNum i)].

(** A reply of the chat endpoint with seven properties. *)
Definition seven : value :=
  VObj [("result", VStr "Here you go");
        ("properties",
         VArr [property 0; property 1; property 2; property 3;
               property 4; property 5; property 6])].

End Demo.

(** A second world: a static bearer token is configured and the backend
    refuses every request with 401. *)
Module DemoStatic.
Import JS Api.

Definition refusing (reqs : list Request) : Settled :=
  {| reply := Responds {| status := 401; Api.text := Some "denied" |};
     settled_at := 1000 * Z.of_nat (length reqs) |}.

#[export] Instance browser : Browser :=
  {| VITE_API_BASE_URL := Some "https://api.example";
     VITE_API_AUTH_TOKEN := Some "chatbot-api-token-2024";
     VITE_API_USERNAME := None;
     VITE_API_PASSWORD := None;
     server := refusing;
     JSON_parse := fun t => if String.eqb t "{}" then Some (VObj []) else None;
     JSON_stringify := fun _ => "{}";
     json_as_TokenBundle := fun _ => None;
     json_as_AccessGrant := fun _ => None;
     URLSearchParams_toString := fun _ => "" |}.

Definition fresh : State := Api.initial ∅ 0.

End DemoStatic.

(** A third world: credentials are configured, the login is refused with
    403, and the backend answers everything else with 500 and a body. *)
Module DemoDown.
Import JS Api.

Definition failing (reqs : list Request) : Settled :=
  {| reply := match reqs with
              | [_] => Responds {| status := 403; Api.text := Some "no" |}
              | _ => Responds {| status := 500; Api.text := Some "boom" |}
              end;
     settled_at := 1000 * Z.of_nat (length reqs) |}.

#[export] Instance browser : Browser :=
  {| VITE_API_BASE_URL := None;
     VITE_API_AUTH_TOKEN := None;
     VITE_API_USERNAME := Some "agent";
     VITE_API_PASSWORD := Some "secret";
     server := failing;
     JSON_parse := fun t => if String.eqb t "{}" then Some (VObj []) else None;
     JSON_stringify := fun _ => "{}";
     json_as_TokenBundle := fun _ => None;
     json_as_AccessGrant := fun _ => None;
     URLSearchParams_toString := fun _ => "" |}.

Definition fresh : State := Api.initial ∅ 0.

End DemoDown.

(** A fourth world: the login is accepted, the chat call is refused with
    401, and the refresh request does not get through (neither does any
    later request). *)
Module DemoRefreshDown.
Import JS Api.

Definition script : list Response :=
  [ {| status := 200; Api.text := Some "login" |};
    {| status := 401; Api.text := Some "token expired" |} ].

Definition scripted (reqs : list Request) : Settled :=
  {| reply := match script !! (length reqs - 1)%nat with
              | Some res => Responds res
              | None => NetworkFailure
              end;
     settled_at := 1000 * Z.of_nat (length reqs) |}.

#[export] Instance browser : Browser :=
  {| VITE_API_BASE_URL := None;
     VITE_API_AUTH_TOKEN := None;
     VITE_API_USERNAME := Some "agent";
     VITE_API_PASSWORD := Some "secret";
     server := scripted;
     JSON_parse := fun t => if String.eqb t "{}" then Some (VObj []) else None;
     JSON_stringify := fun _ => "{}";
     json_as_TokenBundle := fun t =>
       if String.eqb t "login"
       then Some {| access_token := "a1"; refresh_token := "r1";
                    expires_in := Some 60 |}
       else None;
     json_as_AccessGrant := fun _ => None;
     URLSearchParams_toString := fun _ => "" |}.

Definition fresh : State := Api.initial ∅ 0.

End DemoRefreshDown.

(** Worlds for [Store]: the whole numbers of [Whole], a backend
    that accepts the login and nothing else, and a [localStorage] that
    takes every call ([open_storage]), or throws at every write
    ([full_storage]), or throws at every read ([closed_storage]). *)
Module DemoStore.
Import JS Api Store Whole.

Definition answers (reqs : list Request) : Reply * JS.number :=
  (match reqs with
   | [_] => Responds {| status := 200; Api.text := Some "login" |}
   | _ => NetworkFailure
   end,
   Num (1000 * Z.of_nat (length reqs))).

Definition world (reads_throw writes_throw : bool) : World :=
  {| Store.VITE_API_BASE_URL := None;
     Store.VITE_API_AUTH_TOKEN := None;
     Store.VITE_API_USERNAME := Some "agent";
     Store.VITE_API_PASSWORD := Some "secret";
     Store.server := answers;
     Store.JSON_stringify := fun _ => "{}";
     Store.json_as_TokenBundle := fun t =>
       if String.eqb t "login"
       then Some {| access_token := "a1"; refresh_token := "r1";
                    expires_in := Some (Num 60) |}
       else None;
     getItem_throws := fun _ _ => reads_throw;
     setItem_throws := fun _ _ _ => writes_throw |}.

Definition open_storage : World := world false false.
Definition full_storage : World := world false true.
Definition closed_storage : World := world true false.

(** The bundle the backend returns. *)
Definition bundle : TokenBundle :=
  {| access_token := "a1"; refresh_token := "r1"; expires_in := Some (Num 60) |}.

End DemoStore.

(** An engine for the runs below: [toLowerCase] and [trim] on ASCII
    letters and spaces. *)
Module DemoEngine.
Import JS Api ChatbotUi.

Definition lower_ascii (c : ascii) : ascii :=
  let n := nat_of_ascii c in
  if (65 <=? n)%nat && (n <=? 90)%nat then ascii_of_nat (n + 32) else c.

Fixpoint lower (s : string) : string :=
  match s with
  | EmptyString => EmptyString
  | String c rest => String (lower_ascii c) (lower rest)
  end.

Fixpoint trim_left (s : string) : string :=
  match s with
  | String " " rest => trim_left rest
  | _ => s
  end.

Definition reverse (s : string) : string :=
  string_of_list_ascii (List.rev (list_ascii_of_string s)).

#[export] Instance engine : Engine :=
  {| toLowerCase := lower;
     trim := fun s => reverse (trim_left (reverse (trim_left s)));
     price_in_millions := fun p => String_of_Z (p / 100000);
     exn_message := fun _ => "Failed to fetch" |}.

(** The chat as first rendered, for a client state [st]. *)
Definition app_of (st : Api.State) : App :=
  {| api := st; ui := Chatbot.initial; userIdRef := "u-1";
     searchState_state := {| price := None; intBeds := Some 2; city := None |} |}.

End DemoEngine.

(* ===================================================================== *)
(** * Properties                                                          *)
(* ===================================================================== *)

(** ** Numbers and strings *)

Section JS_facts.
Import JS.

Lemma Number_String_of_Z (z : Z) : Number (String_of_Z z) = Num z.
Proof.
  unfold Number, String_of_Z.
  rewrite NilZero.isi.
  - now rewrite DecimalZ.of_to.
  - destruct z; simpl; try discriminate.
    intros [= E]. now apply Unsigned.to_uint_nonnil in E.
  - destruct z; simpl; try discriminate.
    intros [= E]. now apply Unsigned.to_uint_nonnil in E.
Qed.

(** [Number(String(n)) = n] for every number of the model. *)
Lemma Number_String_of_number (n : number) : Number (String_of_number n) = n.
Proof.
  destruct n as [z|]; [apply Number_String_of_Z | reflexivity].
Qed.

Lemma String_of_Z_truthy (z : Z) : truthy_string (String_of_Z z) = true.
Proof.
  pose proof (Number_String_of_Z z) as E.
  destruct (String_of_Z z); [discriminate E | reflexivity].
Qed.

Lemma or_string_empty (a : string) : or_string a "" = a.
Proof. now destruct a. Qed.

Lemma truthy_string_true (a : string) : truthy_string a = true <-> a <> "".
Proof. destruct a; simpl; split; congruence. Qed.

End JS_facts.

(** ** Token store *)

Section Token_store.
Import JS Api.

Lemma getItem_setItem (k k' v : string) (s : State) :
  getItem k' (setItem k v s) = if decide (k = k') then Some v else getItem k' s.
Proof. unfold getItem, setItem; simpl. apply lookup_insert. Qed.

Lemma tokens_setItem (k v : string) (s : State) : tokens (setItem k v s) = tokens s.
Proof. reflexivity. Qed.


Lemma sent_saveTokens (bundle : TokenBundle) (s : State) :
  sent (saveTokens bundle s) = sent s.
Proof. reflexivity. Qed.

Lemma sent_loadTokens (s : State) : sent (loadTokens s) = sent s.
Proof. reflexivity. Qed.

Lemma localStorage_loadTokens (s : State) :
  localStorage (loadTokens s) = localStorage s.
Proof. reflexivity. Qed.


End Token_store.

(** ** Promises and the request log *)

Section Async_facts.
Import JS Api.
Context `{Browser}.

Lemma issued_app (s s' : State) (evs : list (Site * Request)) :
  sent s' = sent s ++ evs -> issued s s' = evs.
Proof. intros E. unfold issued. rewrite E. apply drop_app_length. Qed.

Lemma issued_same (s s' : State) : sent s' = sent s -> issued s s' = [].
Proof. intros E. apply issued_app. now rewrite app_nil_r. Qed.

Lemma doFetches_app (a b : list (Site * Request)) :
  doFetches (a ++ b) = doFetches a ++ doFetches b.
Proof. unfold doFetches. now rewrite List.filter_app, List.map_app. Qed.

(** Where a [fetch] leaves the state: one more request in the log, the
    clock at the settling time, tokens and storage as they were. *)
Definition arrival (site : Site) (req : Request) (s : State) : State :=
  snd (fetch site req s).

Definition answer (req : Request) (s : State) : Reply :=
  reply (server (List.map snd (sent s) ++ [req])).

Lemma fetch_run (site : Site) (req : Request) (s : State) :
  fetch site req s =
  (match answer req s with
   | NetworkFailure => Rejected FetchFailed
   | Responds res => Resolved res
   end, arrival site req s).
Proof.
  unfold arrival, answer, fetch. rewrite List.map_app. simpl.
  now destruct (reply _).
Qed.

Lemma sent_arrival (site : Site) (req : Request) (s : State) :
  sent (arrival site req s) = sent s ++ [(site, req)].
Proof. unfold arrival, fetch. now destruct (reply _). Qed.

Lemma tokens_arrival (site : Site) (req : Request) (s : State) :
  tokens (arrival site req s) = tokens s.
Proof. unfold arrival, fetch. now destruct (reply _). Qed.

Lemma localStorage_arrival (site : Site) (req : Request) (s : State) :
  localStorage (arrival site req s) = localStorage s.
Proof. unfold arrival, fetch. now destruct (reply _). Qed.

Lemma res_json_state {T} (decode : string -> option T) (res : Response) (s : State) :
  snd (res_json decode res s) = s.
Proof. unfold res_json. destruct (text res) as [t|]; [destruct (decode t)|]; reflexivity. Qed.

Lemma res_text_state (res : Response) (s : State) : snd (res_text res s) = s.
Proof. unfold res_text. now destruct (text res). Qed.

End Async_facts.

(** ** Login *)

Section Login.
Import JS Api.
Context `{Browser}.

(** [loginIfNeeded], step by step. *)
Lemma loginIfNeeded_run (s : State) :
  loginIfNeeded s =
  if truthy_string STATIC_BEARER then
    (Resolved tt,
     set_tokens STATIC_BEARER (REFRESH_TOKEN s) (Num (Date_now s + 3600000)) s)
  else
    let s1 := loadTokens s in
    if truthy_string (ACCESS_TOKEN s1) && lt (Num (Date_now s)) (ACCESS_EXPIRES_AT s1)
    then (Resolved tt, s1)
    else if negb (truthy_string API_USERNAME) || negb (truthy_string API_PASSWORD)
    then (Resolved tt, s1)
    else
      let s2 := arrival AtLogin login_request s1 in
      match answer login_request s1 with
      | NetworkFailure => (Rejected FetchFailed, s2)
      | Responds res =>
          if ok res then
            match res_json json_as_TokenBundle res s2 with
            | (Resolved data, _) => (Resolved tt, saveTokens data s2)
            | (Rejected e, _) => (Rejected e, s2)
            end
          else (Rejected (Error ("Auth login failed: HTTP " +:+ String_of_Z (status res))),
                s2)
      end.
Proof.
  unfold loginIfNeeded.
  destruct (truthy_string STATIC_BEARER); [reflexivity|].
  unfold bind at 1. unfold modify at 1.
  unfold bind at 1. unfold gets at 1.
  unfold bind at 1. unfold gets at 1.
  unfold bind at 1. unfold gets at 1.
  cbv zeta.
  change (Date_now (loadTokens s)) with (Date_now s).
  destruct (_ && _); [reflexivity|].
  destruct (_ || _); [reflexivity|].
  unfold bind at 1. rewrite fetch_run.
  destruct (answer login_request (loadTokens s)) as [|res]; [reflexivity|].
  destruct (ok res); simpl; [|reflexivity].
  unfold bind, modify.
  pose proof (res_json_state json_as_TokenBundle res
                (arrival AtLogin login_request (loadTokens s))) as E.
  destruct (res_json _ _ _) as [[data|e] s3]; simpl in E; now subst.
Qed.

End Login.

Section Login_spec.
Import JS Api.
Context `{Browser}.


End Login_spec.

(** ** The token store and the login, with a storage that may throw *)

Section Store_facts.
Import JS Api Store.
Context `{World}.

Lemma loadTokens_read (s : State) :
  reads_accepted s ->
  loadTokens s =
  set_tokens (or_default (localStorage s !! "cb_access_token") "")
             (or_default (localStorage s !! "cb_refresh_token") "")
             (Number_of (or_default (localStorage s !! "cb_access_expires_at") "0")) s.
Proof.
  intros (Ra & Rr & Re). unfold loadTokens, getItem. now rewrite Ra, Rr, Re.
Qed.

Lemma loadTokens_thrown (s : State) : ~ reads_accepted s -> loadTokens s = s.
Proof.
  intros N. unfold loadTokens, getItem.
  destruct (getItem_throws _ "cb_access_token") eqn:Ra; [reflexivity|].
  destruct (getItem_throws _ "cb_refresh_token") eqn:Rr; [reflexivity|].
  destruct (getItem_throws _ "cb_access_expires_at") eqn:Re; [reflexivity|].
  destruct N. now repeat split.
Qed.

Lemma reads_accepted_dec (s : State) : reads_accepted s \/ ~ reads_accepted s.
Proof.
  unfold reads_accepted.
  destruct (getItem_throws _ "cb_access_token"),
           (getItem_throws _ "cb_refresh_token"),
           (getItem_throws _ "cb_access_expires_at");
    intuition congruence.
Qed.

Lemma loadTokens_frame (s : State) :
  localStorage (loadTokens s) = localStorage s /\
  Date_now (loadTokens s) = Date_now s /\
  sent (loadTokens s) = sent s.
Proof.
  destruct (reads_accepted_dec s) as [R|R].
  - now rewrite (loadTokens_read s R).
  - now rewrite (loadTokens_thrown s R).
Qed.

Lemma saveTokens_memory (bundle : TokenBundle) (s : State) :
  tokens (saveTokens bundle s) =
  (access_token bundle, refresh_token bundle, expiry_of bundle (Date_now s)) /\
  Date_now (saveTokens bundle s) = Date_now s /\
  sent (saveTokens bundle s) = sent s.
Proof.
  unfold saveTokens, setItem, expiry_of; cbn.
  destruct (setItem_throws _ "cb_access_token" _); [now repeat split|]. cbn.
  destruct (setItem_throws _ "cb_refresh_token" _); [now repeat split|]. cbn.
  destruct (setItem_throws _ "cb_access_expires_at" _); now repeat split.
Qed.

Lemma saveTokens_written (bundle : TokenBundle) (s : State) :
  let a := access_token bundle in
  let r := refresh_token bundle in
  let e := String_of_double (expiry_of bundle (Date_now s)) in
  writes_accepted a r e s ->
  localStorage (saveTokens bundle s) =
  <["cb_access_expires_at" := e]>
    (<["cb_refresh_token" := r]> (<["cb_access_token" := a]> (localStorage s))).
Proof.
  intros a r e (Wa & Wr & We). unfold saveTokens, setItem; cbn.
  fold a r. rewrite Wa. cbn. rewrite Wr. cbn.
  change (String_of_double _) with e. now rewrite We.
Qed.

Lemma sent_fetch (req : Request) (s : State) :
  sent (snd (fetch req s)) = sent s ++ [req] /\
  tokens (snd (fetch req s)) = tokens s /\
  localStorage (snd (fetch req s)) = localStorage s.
Proof. unfold fetch. now destruct (fst (server _)). Qed.

Lemma issued_nothing (s s' : State) : sent s' = sent s -> issued s s' = [].
Proof. unfold issued. intros ->. apply drop_all. Qed.

Lemma issued_one (s s' : State) (req : Request) :
  sent s' = sent s ++ [req] -> issued s s' = [req].
Proof. unfold issued. intros ->. now rewrite drop_app_length. Qed.

Lemma token_fresh_iff (s : State) :
  truthy_string (ACCESS_TOKEN s) && before (Date_now s) (ACCESS_EXPIRES_AT s) = true
  <-> token_fresh s.
Proof.
  unfold token_fresh. rewrite andb_true_iff, truthy_string_true. reflexivity.
Qed.

Lemma credentials_missing_iff' :
  negb (truthy_string API_USERNAME) || negb (truthy_string API_PASSWORD) = true
  <-> credentials_missing.
Proof.
  unfold credentials_missing. rewrite orb_true_iff, !negb_true_iff.
  destruct API_USERNAME, API_PASSWORD; simpl; intuition congruence.
Qed.


Lemma loginIfNeeded_skips (s : State) :
  STATIC_BEARER = "" ->
  token_fresh (loadTokens s) \/ credentials_missing ->
  loginIfNeeded s = (Resolved tt, loadTokens s).
Proof.
  intros Hs D. unfold loginIfNeeded. rewrite Hs. cbn [truthy_string]. cbv zeta.
  destruct (truthy_string (ACCESS_TOKEN (loadTokens s)) && _) eqn:F; [reflexivity|].
  destruct (negb (truthy_string API_USERNAME) || _) eqn:C; [reflexivity|].
  destruct D as [D|D].
  - apply token_fresh_iff in D. congruence.
  - apply credentials_missing_iff' in D. congruence.
Qed.

Lemma loginIfNeeded_posts (s : State) :
  STATIC_BEARER = "" ->
  ~ token_fresh (loadTokens s) -> ~ credentials_missing ->
  loginIfNeeded s =
  let arrived := snd (fetch credentials_post (loadTokens s)) in
  match fst (server (sent s ++ [credentials_post])) with
  | NetworkFailure => (Rejected FetchFailed, arrived)
  | Responds res =>
      if ok res then
        match text res with
        | None => (Rejected BodyFailed, arrived)
        | Some t =>
            match json_as_TokenBundle t with
            | None => (Rejected SyntaxError, arrived)
            | Some data => (Resolved tt, saveTokens data arrived)
            end
        end
      else (Rejected (Error ("Auth login failed: HTTP " +:+ String_of_Z (status res))),
            arrived)
  end.
Proof.
  intros Hs F C. unfold loginIfNeeded. rewrite Hs. cbn [truthy_string]. cbv zeta.
  destruct (truthy_string (ACCESS_TOKEN (loadTokens s)) && _) eqn:F'.
  { destruct F. now apply token_fresh_iff. }
  destruct (negb (truthy_string API_USERNAME) || _) eqn:C'.
  { destruct C. now apply credentials_missing_iff'. }
  fold credentials_post. unfold fetch.
  destruct (loadTokens_frame s) as (_ & _ & ->).
  destruct (fst (server _)) as [|res]; [reflexivity|]. cbn [fst snd].
  destruct (ok res); cbn [negb]; [|reflexivity].
  destruct (text res) as [t|]; [|reflexivity].
  destruct (json_as_TokenBundle t); reflexivity.
Qed.

(** C5, amended.  [saveTokens] puts the access token, the refresh token
    and the computed expiry (the save time plus [expires_in], 900 seconds
    when there is none, times 1000, minus 5000) in memory.  When
    [localStorage] accepts the three writes, it holds the access token
    under [cb_access_token], the refresh token under [cb_refresh_token]
    and [String] of the expiry under [cb_access_expires_at]; a later
    [loadTokens] that [localStorage] lets read these entries restores the
    three values, the expiry as [Number] reads back what [String] wrote
    (the same number: [String] and [Number] are inverse on every number
    but -0). *)
Theorem saved_tokens_are_restored (bundle : TokenBundle) (s : State) :
  let saved := saveTokens bundle s in
  let seconds := match expires_in bundle with Some n => n | None => of_Z 900 end in
  let expiry := sub (add (Date_now s) (mul seconds (of_Z 1000))) (of_Z 5000) in
  writes_accepted (access_token bundle) (refresh_token bundle)
                  (String_of_double expiry) s ->
  tokens saved = (access_token bundle, refresh_token bundle, expiry) /\
  localStorage saved !! "cb_access_token" = Some (access_token bundle) /\
  localStorage saved !! "cb_refresh_token" = Some (refresh_token bundle) /\
  localStorage saved !! "cb_access_expires_at" = Some (String_of_double expiry) /\
  forall later : State,
    localStorage later = localStorage saved ->
    reads_accepted later ->
    String_of_double expiry <> "" ->
    Number_of (String_of_double expiry) = expiry ->
    tokens (loadTokens later) = tokens saved.
Proof.
  intros saved seconds expiry W.
  destruct (saveTokens_memory bundle s) as (M & _ & _).
  change (expiry_of bundle (Date_now s)) with expiry in M.
  pose proof (saveTokens_written bundle s W) as St. cbv zeta in St.
  change (expiry_of bundle (Date_now s)) with expiry in St. fold saved in St, M.
  assert (Ga : localStorage saved !! "cb_access_token" = Some (access_token bundle)).
  { rewrite St. rewrite lookup_insert_ne by discriminate.
    rewrite lookup_insert_ne by discriminate. apply lookup_insert_eq. }
  assert (Gr : localStorage saved !! "cb_refresh_token" = Some (refresh_token bundle)).
  { rewrite St. rewrite lookup_insert_ne by discriminate. apply lookup_insert_eq. }
  assert (Ge : localStorage saved !! "cb_access_expires_at" =
               Some (String_of_double expiry)).
  { rewrite St. apply lookup_insert_eq. }
  split; [exact M|]. split; [exact Ga|]. split; [exact Gr|]. split; [exact Ge|].
  intros later L R Ne Rt.
  rewrite (loadTokens_read later R), L, Ga, Gr, Ge, M. unfold tokens; cbn.
  rewrite !or_string_empty.
  apply truthy_string_true in Ne. unfold or_string. now rewrite Ne, Rt.
Qed.


(** X8. [loadTokens] is all or nothing.  When the three reads of
    [localStorage] return, the three module variables take what the
    entries hold, the empty string standing for a missing or empty token
    and [Number] of "0" for a missing or empty expiry.  When one of the
    reads throws, be it the last one, none of the variables changes: the
    tokens in memory stay in use.  In both cases nothing is written and
    nothing is sent, and a second [loadTokens] changes nothing more. *)
Theorem loadTokens_all_or_nothing (s : State) :
  (reads_accepted s ->
     tokens (loadTokens s) =
     (or_default (localStorage s !! "cb_access_token") "",
      or_default (localStorage s !! "cb_refresh_token") "",
      Number_of (or_default (localStorage s !! "cb_access_expires_at") "0"))) /\
  (~ reads_accepted s -> loadTokens s = s) /\
  localStorage (loadTokens s) = localStorage s /\
  Date_now (loadTokens s) = Date_now s /\
  sent (loadTokens s) = sent s /\
  loadTokens (loadTokens s) = loadTokens s.
Proof.
  split; [intros R; now rewrite (loadTokens_read s R)|].
  split; [apply loadTokens_thrown|].
  destruct (loadTokens_frame s) as (Ls & Ld & Lt).
  split; [exact Ls|]. split; [exact Ld|]. split; [exact Lt|].
  destruct (reads_accepted_dec s) as [R|R].
  - assert (R' : reads_accepted (loadTokens s)) by (unfold reads_accepted; now rewrite Ls).
    rewrite (loadTokens_read _ R'), Ls. now rewrite (loadTokens_read s R).
  - now rewrite !(loadTokens_thrown s R).
Qed.

(** X9. With no static token configured, take a bundle with a non-empty
    access token that [saveTokens] saved while [localStorage] accepted the
    writes, and a later [loginIfNeeded] that finds these entries and can
    read them.  As long as the clock is before the saved expiry (the save
    time plus 1000 times [expires_in], 900 s by default, minus 5000) it
    sends nothing and the saved access token is the one in use; from then
    on, with credentials configured, it logs in again.  The expiry is
    compared as [Number] reads it back from the text [String] wrote. *)
Theorem saved_token_used_until_expiry
    (bundle : TokenBundle) (s later : State) :
  let expiry := expiry_of bundle (Date_now s) in
  STATIC_BEARER = "" -> access_token bundle <> "" ->
  writes_accepted (access_token bundle) (refresh_token bundle)
                  (String_of_double expiry) s ->
  String_of_double expiry <> "" ->
  Number_of (String_of_double expiry) = expiry ->
  localStorage later = localStorage (saveTokens bundle s) ->
  reads_accepted later ->
  (before (Date_now later) expiry = true ->
     issued later (snd (loginIfNeeded later)) = [] /\
     fst (loginIfNeeded later) = Resolved tt /\
     ACCESS_TOKEN (snd (loginIfNeeded later)) = access_token bundle) /\
  (before (Date_now later) expiry = false -> ~ credentials_missing ->
     issued later (snd (loginIfNeeded later)) = [credentials_post]).
Proof.
  intros expiry Hs Hne W Ne Rt L R.
  pose proof (saveTokens_written bundle s W) as St. cbv zeta in St.
  fold expiry in St.
  assert (T : tokens (loadTokens later) =
              (access_token bundle, refresh_token bundle, expiry)).
  { rewrite (loadTokens_read later R), L, St. unfold tokens; cbn.
    rewrite lookup_insert_eq.
    rewrite (lookup_insert_ne _ "cb_access_expires_at" "cb_refresh_token")
      by discriminate.
    rewrite lookup_insert_eq.
    rewrite (lookup_insert_ne _ "cb_access_expires_at" "cb_access_token")
      by discriminate.
    rewrite (lookup_insert_ne _ "cb_refresh_token" "cb_access_token")
      by discriminate.
    rewrite lookup_insert_eq. cbn. rewrite !or_string_empty.
    apply truthy_string_true in Ne. unfold or_string. now rewrite Ne, Rt. }
  injection T as Ta Tr Te.
  destruct (loadTokens_frame later) as (_ & Ld & Lt).
  split.
  - intros B.
    assert (F : token_fresh (loadTokens later)).
    { split; [now rewrite Ta | now rewrite Ld, Te]. }
    rewrite (loginIfNeeded_skips later Hs (or_introl F)). cbn.
    split; [now apply issued_nothing|]. now split.
  - intros B C.
    assert (F : ~ token_fresh (loadTokens later)).
    { intros [_ F]. rewrite Ld, Te in F. congruence. }
    rewrite (loginIfNeeded_posts later Hs F C). cbv zeta.
    destruct (sent_fetch credentials_post (loadTokens later)) as (Fs & _ & _).
    rewrite Lt in Fs.
    assert (I : forall x : State,
              sent x = sent (snd (fetch credentials_post (loadTokens later))) ->
              issued later x = [credentials_post]).
    { intros x E. apply issued_one. now rewrite E. }
    destruct (fst (server _)) as [|res]; [now apply I|].
    destruct (ok res); [|now apply I].
    destruct (text res) as [t|]; [|now apply I].
    destruct (json_as_TokenBundle t) as [data|]; [|now apply I].
    apply I. cbn [snd]. apply saveTokens_memory.
Qed.

End Store_facts.

Section Store_demo_full.
Import JS Api Store Whole DemoStore.
#[local] Existing Instance full_storage.

(** C5 as stated fails when [localStorage] refuses the writes, as it does
    when its quota is used up: [saveTokens] catches the exception, so the
    bundle is in memory only.  Nothing is under [cb_access_token], and a
    [loadTokens] that follows does not restore the three values: it
    replaces them by the empty tokens and the expiry 0 it reads from the
    storage left as it was. *)
Lemma refused_writes_are_not_restored :
  let s := Store.initial ∅ (Num 1000) in
  let saved := saveTokens bundle s in
  tokens saved = ("a1", "r1", Num 56000) /\
  localStorage saved !! "cb_access_token" <> Some (access_token bundle) /\
  localStorage saved = ∅ /\
  reads_accepted saved /\
  tokens (loadTokens saved) = ("", "", Num 0) /\
  tokens (loadTokens saved) <> tokens saved.
Proof.
  cbv zeta. split; [reflexivity|]. split; [discriminate|].
  split; [reflexivity|]. split; [now repeat split|].
  split; [reflexivity|]. discriminate.
Qed.

End Store_demo_full.

Section Store_demo_closed.
Import JS Api Store Whole DemoStore.
#[local] Existing Instance closed_storage.

(** A [localStorage] that cannot be read: [loginIfNeeded] goes on with
    the token in memory and sends nothing while the clock is before the
    expiry held with it, although the storage holds no token at all. *)
Example demo_unreadable_storage :
  let s := {| ACCESS_TOKEN := "a0"; REFRESH_TOKEN := "r0";
              ACCESS_EXPIRES_AT := Num 9000; localStorage := ∅;
              Date_now := Num 5; sent := [] |} in
  loadTokens s = s /\
  loginIfNeeded s = (Resolved tt, s).
Proof. cbv zeta. split; reflexivity. Qed.

End Store_demo_closed.

Section Store_demo_open.
Import JS Api Store Whole DemoStore.
#[local] Existing Instance open_storage.

(** [loginIfNeeded] on the module freshly loaded: the login request goes
    out and the bundle of the answer is saved one second later. *)
Example demo_store_login :
  let s := Store.initial ∅ (Num 0) in
  issued s (snd (loginIfNeeded s)) = [credentials_post] /\
  fst (loginIfNeeded s) = Resolved tt /\
  tokens (snd (loginIfNeeded s)) = ("a1", "r1", Num 56000) /\
  localStorage (snd (loginIfNeeded s)) !! "cb_access_expires_at" = Some "56000".
Proof. cbv zeta. vm_compute. repeat split. Qed.

(** The amended C5 for the bundle the backend returns (60 s), saved at
    time 1000 in a storage that takes every call, and read back from
    it. *)
Lemma saved_tokens_are_restored_witness :
  let s := Store.initial ∅ (Num 1000) in
  let saved := saveTokens bundle s in
  writes_accepted "a1" "r1" "56000" s /\
  tokens saved = ("a1", "r1", Num 56000) /\
  localStorage saved !! "cb_access_token" = Some "a1" /\
  localStorage saved !! "cb_refresh_token" = Some "r1" /\
  localStorage saved !! "cb_access_expires_at" = Some "56000" /\
  reads_accepted saved /\
  tokens (loadTokens saved) = tokens saved.
Proof.
  intros s saved.
  assert (W : writes_accepted "a1" "r1" "56000" s) by (repeat split).
  assert (R : reads_accepted saved) by (repeat split).
  destruct (saved_tokens_are_restored bundle s W) as (M & Ga & Gr & Ge & Back).
  split; [exact W|]. split; [exact M|]. split; [exact Ga|]. split; [exact Gr|].
  split; [exact Ge|]. split; [exact R|].
  apply Back; [reflexivity | exact R | discriminate | reflexivity].
Defined.

(** X9 for that bundle: used at 55999, stale at 56000. *)
Lemma saved_token_used_until_expiry_witness :
  let s := Store.initial ∅ (Num 1000) in
  let saved := saveTokens bundle s in
  let at_ (t : Z) := Store.initial (localStorage saved) (Num t) in
  (issued (at_ 55999) (snd (loginIfNeeded (at_ 55999))) = [] /\
   fst (loginIfNeeded (at_ 55999)) = Resolved tt /\
   ACCESS_TOKEN (snd (loginIfNeeded (at_ 55999))) = "a1") /\
  issued (at_ 56000) (snd (loginIfNeeded (at_ 56000))) = [credentials_post].
Proof.
  cbv zeta.
  pose (s := Store.initial ∅ (Num 1000)).
  pose (saved := saveTokens bundle s).
  assert (S : STATIC_BEARER = "") by reflexivity.
  assert (N : access_token bundle <> "") by discriminate.
  assert (W : writes_accepted "a1" "r1" "56000" s) by (repeat split).
  assert (Ne : "56000" <> "") by discriminate.
  assert (Rt : JS.Number "56000" = Num 56000) by reflexivity.
  assert (C : ~ credentials_missing) by (intros [C|C]; discriminate C).
  pose (fresh_ := Store.initial (localStorage saved) (Num 55999)).
  pose (stale := Store.initial (localStorage saved) (Num 56000)).
  assert (R1 : reads_accepted fresh_) by (repeat split).
  assert (R2 : reads_accepted stale) by (repeat split).
  split.
  - apply (proj1 (saved_token_used_until_expiry bundle s fresh_
                    S N W Ne Rt eq_refl R1)).
    reflexivity.
  - apply (proj2 (saved_token_used_until_expiry bundle s stale
                    S N W Ne Rt eq_refl R2));
      [reflexivity | exact C].
Defined.

End Store_demo_open.

(** ** [Api] is [Store] where the storage takes every call

    In the world [Whole.accepting] of a browser, the token store and the
    login of [Store] do, step for step, what those of [Api] do. *)

Section Api_in_Store.
Import JS Api Whole.
Context `{Browser}.
#[local] Existing Instance accepting.

Lemma Store_loadTokens_accepting (s : State) :
  Store.loadTokens (state_of s) = state_of (loadTokens s).
Proof. reflexivity. Qed.

Lemma Store_saveTokens_accepting (b : TokenBundle) (s : State) :
  Store.saveTokens (bundle_of b) (state_of s) = state_of (saveTokens b s).
Proof.
  unfold Store.saveTokens, saveTokens, Store.setItem, state_of; cbn.
  destruct (expires_in b); reflexivity.
Qed.

Lemma Store_fetch_accepting (site : Site) (req : Request) (s : State) :
  Store.fetch req (state_of s) =
  (fst (fetch site req s), state_of (snd (fetch site req s))).
Proof.
  assert (L : List.map snd (sent s ++ [(site, req)]) = List.map snd (sent s) ++ [req])
    by (now rewrite List.map_app).
  unfold Store.fetch, fetch. cbv zeta. rewrite L.
  change (Store.sent (state_of s)) with (List.map snd (sent s)).
  change (fst (Store.server ?l)) with (reply (server l)).
  change (snd (Store.server ?l)) with (Num (settled_at (server l))).
  destruct (reply _); unfold state_of; cbn; now rewrite L.
Qed.

Lemma Store_loginIfNeeded_accepting (s : State) :
  Store.loginIfNeeded (state_of s) =
  (fst (loginIfNeeded s), state_of (snd (loginIfNeeded s))).
Proof.
  rewrite loginIfNeeded_run. unfold Store.loginIfNeeded.
  change Store.STATIC_BEARER with STATIC_BEARER.
  change Store.API_USERNAME with API_USERNAME.
  change Store.API_PASSWORD with API_PASSWORD.
  change Store.BASE_URL with BASE_URL.
  destruct (truthy_string STATIC_BEARER); [reflexivity|]. cbv zeta.
  rewrite Store_loadTokens_accepting.
  change (Store.ACCESS_TOKEN (state_of (loadTokens s)))
    with (ACCESS_TOKEN (loadTokens s)).
  change (Store.before (Store.Date_now (state_of (loadTokens s)))
                 (Store.ACCESS_EXPIRES_AT (state_of (loadTokens s))))
    with (lt (Num (Date_now s)) (ACCESS_EXPIRES_AT (loadTokens s))).
  destruct (_ && _); [reflexivity|].
  destruct (_ || _); [reflexivity|].
  change {| url := BASE_URL +:+ "/auth/login"; options := _ |} with login_request.
  rewrite (Store_fetch_accepting AtLogin), fetch_run. cbn [fst snd].
  destruct (answer login_request (loadTokens s)) as [|res]; [reflexivity|].
  destruct (ok res); cbn [negb]; [|reflexivity].
  unfold res_json. destruct (text res) as [t|]; [|reflexivity].
  change (Store.json_as_TokenBundle t)
    with (option_map bundle_of (json_as_TokenBundle t)).
  destruct (json_as_TokenBundle t) as [data|]; [|reflexivity].
  cbn [option_map bind ret modify fst snd].
  now rewrite Store_saveTokens_accepting.
Qed.

End Api_in_Store.

(** ** Refresh *)

Section Refresh.
Import JS Api.
Context `{Browser}.

(** [refreshIfPossible], step by step. *)
Lemma refreshIfPossible_run (s : State) :
  refreshIfPossible s =
  if negb (truthy_string (REFRESH_TOKEN s)) then (Resolved false, s)
  else
    let req := refresh_request (REFRESH_TOKEN s) in
    let s1 := arrival AtRefresh req s in
    match answer req s with
    | NetworkFailure => (Rejected FetchFailed, s1)
    | Responds res =>
        if ok res then
          match res_json json_as_AccessGrant res s1 with
          | (Resolved data, _) =>
              (Resolved true,
               saveTokens {| access_token := grant_access_token data;
                             refresh_token := REFRESH_TOKEN s;
                             expires_in := grant_expires_in data |} s1)
          | (Rejected e, _) => (Rejected e, s1)
          end
        else (Resolved false, s1)
    end.
Proof.
  unfold refreshIfPossible.
  unfold bind at 1. unfold gets at 1.
  destruct (negb _); [reflexivity|].
  unfold bind at 1. rewrite fetch_run. cbv zeta.
  set (s1 := arrival AtRefresh (refresh_request (REFRESH_TOKEN s)) s).
  destruct (answer _ s) as [|res]; [reflexivity|].
  destruct (ok res); simpl; [|reflexivity].
  unfold bind, modify, ret.
  pose proof (res_json_state json_as_AccessGrant res s1) as E.
  destruct (res_json _ _ _) as [[data|e] s3]; simpl in E; subst; [|reflexivity].
  do 3 f_equal.
  pose proof (tokens_arrival AtRefresh (refresh_request (REFRESH_TOKEN s)) s) as T.
  fold s1 in T. now injection T.
Qed.


End Refresh.

(** ** http: request log *)

Section Http_requests.
Import JS Api.
Context `{Browser}.

Lemma loginIfNeeded_sent (s : State) :
  exists evs, sent (snd (loginIfNeeded s)) = sent s ++ evs /\ doFetches evs = [].
Proof.
  rewrite loginIfNeeded_run.
  assert (Hl : forall x : State, sent x = sent s ->
            exists evs, sent x = sent s ++ evs /\ doFetches evs = []).
  { intros x E. exists []. now rewrite app_nil_r. }
  assert (Hf : forall x : State,
            sent x = sent (arrival AtLogin login_request (loadTokens s)) ->
            exists evs, sent x = sent s ++ evs /\ doFetches evs = []).
  { intros x E. exists [(AtLogin, login_request)].
    rewrite E, sent_arrival. now split. }
  destruct (truthy_string STATIC_BEARER); [now apply Hl|]. cbv zeta.
  destruct (_ && _); [now apply Hl|].
  destruct (_ || _); [now apply Hl|].
  destruct (answer _ _) as [|res]; [now apply Hf|].
  destruct (ok res); [|now apply Hf].
  destruct (res_json _ _ _) as [[data|e] ?]; now apply Hf.
Qed.

Lemma refreshIfPossible_sent (s : State) :
  exists evs, sent (snd (refreshIfPossible s)) = sent s ++ evs /\ doFetches evs = [].
Proof.
  rewrite refreshIfPossible_run.
  set (req := refresh_request (REFRESH_TOKEN s)).
  assert (Hf : forall x : State, sent x = sent (arrival AtRefresh req s) ->
            exists evs, sent x = sent s ++ evs /\ doFetches evs = []).
  { intros x E. exists [(AtRefresh, req)]. rewrite E, sent_arrival. now split. }
  destruct (negb _); [exists []; now rewrite app_nil_r|]. cbv zeta.
  destruct (answer _ _) as [|res]; [now apply Hf|].
  destruct (ok res); [|now apply Hf].
  destruct (res_json _ _ _) as [[data|e] ?]; now apply Hf.
Qed.

Lemma doFetch_run (url_ : string) (init : option RequestInit) (s : State) :
  doFetch url_ init s =
  fetch AtDoFetch (target_request url_ init (ACCESS_TOKEN s)) s.
Proof. reflexivity. Qed.

(** Lines 90-111 of [http], step by step: [s0] after the login attempt,
    [s1] after the first fetch, [s2] after the refresh. *)
Lemma http_response_run (path : string) (init : option RequestInit) (s : State) :
  http_response path init s =
  let url_ := BASE_URL +:+ path in
  let s0 := snd (loginIfNeeded s) in
  let first := target_request url_ init (ACCESS_TOKEN s0) in
  let s1 := arrival AtDoFetch first s0 in
  match answer first s0 with
  | NetworkFailure => (Rejected FetchFailed, s1)
  | Responds res =>
      if Z.eqb (status res) 401 && negb (truthy_string STATIC_BEARER) then
        match refreshIfPossible s1 with
        | (Resolved true, s2) =>
            fetch AtDoFetch (target_request url_ init (ACCESS_TOKEN s2)) s2
        | (Resolved false, s2) => (Resolved res, s2)
        | (Rejected e, s2) => (Rejected e, s2)
        end
      else (Resolved res, s1)
  end.
Proof.
  unfold http_response. unfold bind at 1. unfold catch_ignore at 1.
  cbv zeta. unfold bind at 1. rewrite doFetch_run, fetch_run.
  destruct (answer _ _) as [|res]; [reflexivity|].
  destruct (_ && _); [|reflexivity].
  unfold bind. destruct (refreshIfPossible _) as [[[|]|e] s2]; reflexivity.
Qed.

Lemma http_result_state (res : Response) (s : State) : snd (http_result res s) = s.
Proof.
  unfold http_result. destruct (negb (ok res)); [reflexivity|].
  unfold bind, res_text. destruct (text res) as [t|]; [|reflexivity].
  simpl. destruct (negb _); [reflexivity|]. now destruct (JSON_parse t).
Qed.

Lemma http_run (path : string) (init : option RequestInit) (s : State) :
  http path init s =
  match http_response path init s with
  | (Resolved res, s') => (fst (http_result res s'), s')
  | (Rejected e, s') => (Rejected e, s')
  end.
Proof.
  unfold http, bind. destruct (http_response path init s) as [[res|e] s']; trivial.
  rewrite <- (http_result_state res s') at 3. now destruct (http_result res s').
Qed.

Lemma sent_http (path : string) (init : option RequestInit) (s : State) :
  sent (snd (http path init s)) = sent (snd (http_response path init s)).
Proof. rewrite http_run. now destruct (http_response path init s) as [[res|e] s']. Qed.

End Http_requests.

Section Http_retry.
Import JS Api.
Context `{Browser}.

(** The requests [doFetch] sends during one call of [http]. *)
Lemma http_doFetches (path : string) (init : option RequestInit) (s : State) :
  let url_ := BASE_URL +:+ path in
  let s0 := snd (loginIfNeeded s) in
  let first := target_request url_ init (ACCESS_TOKEN s0) in
  let s1 := arrival AtDoFetch first s0 in
  doFetches (issued s (snd (http path init s))) =
  match answer first s0 with
  | NetworkFailure => [first]
  | Responds res =>
      if Z.eqb (status res) 401 && negb (truthy_string STATIC_BEARER) then
        match refreshIfPossible s1 with
        | (Resolved true, s2) => [first; target_request url_ init (ACCESS_TOKEN s2)]
        | _ => [first]
        end
      else [first]
  end.
Proof.
  intros url_ s0 first s1.
  unfold issued. rewrite sent_http, http_response_run. cbv zeta.
  fold url_ s0 first s1.
  destruct (loginIfNeeded_sent s) as (evsL & EL & DL). fold s0 in EL.
  assert (E1 : sent s1 = sent s ++ evsL ++ [(AtDoFetch, first)]).
  { unfold s1. now rewrite sent_arrival, EL, <- app_assoc. }
  assert (D1 : doFetches (drop (length (sent s)) (sent s1)) = [first]).
  { rewrite E1, drop_app_length, doFetches_app, DL. reflexivity. }
  destruct (answer first s0) as [|res]; [exact D1|].
  destruct (_ && _); [|exact D1].
  destruct (refreshIfPossible_sent s1) as (evsR & ER & DR).
  destruct (refreshIfPossible s1) as [[[|]|e] s2]; simpl in ER.
  - rewrite fetch_run. cbn [snd]. rewrite sent_arrival, ER, E1.
    rewrite <- !app_assoc, drop_app_length, !doFetches_app, DL, DR.
    reflexivity.
  - cbn [snd]. rewrite ER, E1, <- !app_assoc, drop_app_length.
    rewrite !doFetches_app, DL, DR. reflexivity.
  - cbn [snd]. rewrite ER, E1, <- !app_assoc, drop_app_length.
    rewrite !doFetches_app, DL, DR. reflexivity.
Qed.

(** C1, amended.  During one call of [http] the target URL is fetched
    once or twice.  It is fetched twice exactly when the first response
    has status 401, no static bearer token is configured and
    [refreshIfPossible] returned true.  When the status is another one, a
    static bearer token is configured, or [refreshIfPossible] returned
    false, the first response is the final one: the rest of [http] works
    on it.  When [refreshIfPossible] itself rejects, nothing more is
    fetched and no response is final: [http] rejects with the exception
    of the refresh. *)
Theorem http_retries_once_after_refresh
    (path : string) (init : option RequestInit) (s : State) :
  let url_ := BASE_URL +:+ path in
  let s0 := snd (loginIfNeeded s) in
  let first := target_request url_ init (ACCESS_TOKEN s0) in
  let s1 := arrival AtDoFetch first s0 in
  let sends := doFetches (issued s (snd (http path init s))) in
  Forall (fun req => url req = url_) sends /\
  (length sends = 1 \/ length sends = 2)%nat /\
  match answer first s0 with
  | NetworkFailure =>
      length sends = 1%nat /\ fst (http path init s) = Rejected FetchFailed
  | Responds res =>
      (length sends = 2%nat <->
         status res = 401 /\ STATIC_BEARER = "" /\
         fst (refreshIfPossible s1) = Resolved true) /\
      (status res <> 401 \/ STATIC_BEARER <> "" \/
       fst (refreshIfPossible s1) = Resolved false ->
         length sends = 1%nat /\
         fst (http_response path init s) = Resolved res) /\
      (forall e : Exn,
         status res = 401 -> STATIC_BEARER = "" ->
         fst (refreshIfPossible s1) = Rejected e ->
         length sends = 1%nat /\
         fst (http_response path init s) = Rejected e /\
         fst (http path init s) = Rejected e)
  end.
Proof.
  intros url_ s0 first s1 sends.
  pose proof (http_doFetches path init s) as D. cbv zeta in D.
  fold url_ s0 first s1 sends in D.
  pose proof (http_run path init s) as R.
  pose proof (http_response_run path init s) as P. cbv zeta in P.
  fold url_ s0 first s1 in P.
  destruct (answer first s0) as [|res].
  { rewrite D. split; [now repeat constructor|]. split; [now left|].
    split; [reflexivity|]. rewrite R, P. reflexivity. }
  destruct (Z.eqb_spec (status res) 401) as [E401|N401]; simpl in D, P.
  2:{ rewrite D. split; [now repeat constructor|]. split; [now left|].
      split; [split; [discriminate | tauto]|].
      split; [intros _; split; [reflexivity | now rewrite P]|].
      intros e E. contradiction. }
  destruct (truthy_string STATIC_BEARER) eqn:Hs; simpl in D, P.
  { apply truthy_string_true in Hs. rewrite D.
    split; [now repeat constructor|]. split; [now left|].
    split; [split; [discriminate | tauto]|].
    split; [intros _; split; [reflexivity | now rewrite P]|].
    intros e _ E. contradiction. }
  assert (STATIC_BEARER = "") as Hs' by (now destruct STATIC_BEARER).
  destruct (refreshIfPossible s1) as [[[|]|e] s2]; rewrite D; simpl.
  - split; [now repeat constructor|]. split; [now right|].
    split; [tauto|].
    split; [intros [N|[N|N]]; [contradiction | contradiction | discriminate]|].
    intros e _ _ [=].
  - split; [now repeat constructor|]. split; [now left|].
    split; [split; [discriminate | now intros (_ & _ & [=])]|].
    split; [intros _; split; [reflexivity | now rewrite P]|].
    intros e _ _ [=].
  - split; [now repeat constructor|]. split; [now left|].
    split; [split; [discriminate | now intros (_ & _ & [=])]|].
    split; [intros [N|[N|N]]; [contradiction | contradiction | discriminate]|].
    intros e' _ _ [= <-]. split; [reflexivity|].
    split; [now rewrite P | rewrite R, P; reflexivity].
Qed.

End Http_retry.

(** ** http: headers *)

Section Http_headers.
Import JS Api.
Context `{Browser}.

Lemma auth_headers_carry (tok : string) :
  header "Content-Type" (auth_headers tok) = Some "application/json" /\
  (tok <> "" -> header "Authorization" (auth_headers tok) = Some ("Bearer " +:+ tok)) /\
  (tok = "" -> header "Authorization" (auth_headers tok) = None).
Proof.
  unfold auth_headers. destruct tok; simpl; repeat split; congruence.
Qed.

Lemma target_request_carries (url_ : string) (init : option RequestInit) (tok : string) :
  init_headers init = None -> carries_token tok (target_request url_ init tok).
Proof.
  intros Hi. exists (auth_headers tok). split; [|apply auth_headers_carry].
  destruct init as [i|]; simpl in *; [now rewrite Hi | reflexivity].
Qed.

(** None of the exported calls passes a [headers] key. *)
Lemma post_has_no_headers (payload : value) : init_headers (post payload) = None.
Proof. reflexivity. Qed.

(** [http] on its own: when [init] has no [headers] key, each of its
    fetches carries the headers built from the access token of that
    moment. *)
Lemma http_sends_token_headers
    (path : string) (init : option RequestInit) (s : State) :
  init_headers init = None ->
  let s0 := snd (loginIfNeeded s) in
  let s1 := arrival AtDoFetch
              (target_request (BASE_URL +:+ path) init (ACCESS_TOKEN s0)) s0 in
  match doFetches (issued s (snd (http path init s))) with
  | [r1] => carries_token (ACCESS_TOKEN s0) r1
  | [r1; r2] =>
      carries_token (ACCESS_TOKEN s0) r1 /\
      carries_token (ACCESS_TOKEN (snd (refreshIfPossible s1))) r2
  | _ => False
  end.
Proof.
  intros Hi s0 s1.
  pose proof (http_doFetches path init s) as D. cbv zeta in D.
  fold s0 s1 in D. rewrite D.
  pose proof (fun tok => target_request_carries (BASE_URL +:+ path) init tok Hi) as C.
  destruct (answer _ s0) as [|res]; [apply C|].
  destruct (_ && _); [|apply C].
  destruct (refreshIfPossible s1) as [[[|]|e] s2]; try apply C.
  split; apply C.
Qed.

End Http_headers.

(** ** http: result *)

Section Http_result.
Import JS Api.
Context `{Browser}.





End Http_result.

(** ** sendChat *)

Section SendChat.
Import JS Api.
Context `{Browser}.

Lemma unwrap_data_spec (reply : value) :
  (forall d, wraps_data reply d -> unwrap_data reply = d) /\
  ((forall d, ~ wraps_data reply d) -> unwrap_data reply = reply).
Proof.
  unfold wraps_data, unwrap_data. split.
  - intros d (props & -> & E). simpl. now rewrite E.
  - intros N. destruct reply as [| |b|z|str|items|props]; simpl;
      rewrite ?andb_false_r; try reflexivity.
    destruct (assoc "data" props) as [d|] eqn:E; [|reflexivity].
      exfalso. apply (N d). now exists props.
Qed.

(** C10. [sendChat] resolves with [reply.data] whenever the reply of
    [http] is an object, not [null], that has the key [data], whatever
    that [data] is and whatever else the reply holds, and with the reply
    itself otherwise; it rejects when [http] rejects. *)
Theorem sendChat_unwraps_data (b : ChatBody) (s : State) :
  match http "/chatbot" (post (ChatBody_value b)) s with
  | (Resolved reply, s') =>
      (forall d, wraps_data reply d -> sendChat b s = (Resolved d, s')) /\
      ((forall d, ~ wraps_data reply d) -> sendChat b s = (Resolved reply, s'))
  | (Rejected e, s') => sendChat b s = (Rejected e, s')
  end.
Proof.
  unfold sendChat, bind.
  destruct (http _ _ s) as [[reply|e] s']; [|reflexivity].
  destruct (unwrap_data_spec reply) as [Hw Hn]. unfold ret. split.
  - intros d W. now rewrite (Hw d W).
  - intros N. now rewrite (Hn N).
Qed.

End SendChat.

(** ** Reply normalizer *)

Section Normalizer.
Import JS Chatbot.

Lemma coalesce_first_defined (a : value) (rest : list value) :
  first_defined (a :: rest) = if nullish a then first_defined rest else a.
Proof. unfold first_defined. cbn [List.find]. now destruct (nullish a). Qed.

Lemma coalesce_left (a b c : value) :
  coalesce (coalesce a b) c = coalesce a (coalesce b c).
Proof.
  unfold coalesce. destruct (nullish a) eqn:E; cbv iota; [reflexivity|].
  now rewrite E.
Qed.

Lemma label_of_first_defined (o : value) :
  label_of o =
  first_defined [get "label" o; get "text" o; get "name" o; get "title" o;
                 get "value" o; get "id" o].
Proof.
  unfold label_of. rewrite !coalesce_left, !coalesce_first_defined.
  unfold coalesce, first_defined. cbn [List.find]. reflexivity.
Qed.

Lemma value_of_first_defined (o : value) :
  value_of o =
  first_defined [get "value" o; get "id" o; get "label" o; get "text" o;
                 get "name" o].
Proof.
  unfold value_of. rewrite !coalesce_left, !coalesce_first_defined.
  unfold coalesce, first_defined. cbn [List.find]. reflexivity.
Qed.

(** What the normalizer makes of a source array. *)
Lemma normalized_array (items : list value) :
  normalized (VArr items) = uniform_model (Some (VArr items)).
Proof.
  unfold normalized, uniform_model, normalizeOptions, option_model.
  cbn [truthy]. destruct (first_is_string items); [reflexivity|].
  f_equal. apply List.map_ext. intros o.
  now rewrite label_of_first_defined, value_of_first_defined.
Qed.

(** C2. The button source is the first of the reply's fields [buttons],
    [options], [choices] that is an array, the dropdown source the first
    of [dropdown], [select_options] that is an array.  Without a source
    nothing is produced.  A source array is mapped into the uniform model:
    the result has one {label, value} pair per element of the array, in
    the order of the array; the two fields of a pair are [String] of the
    element when the array starts with a string, and otherwise [String]
    of the first defined of the element's [label], [text], [name],
    [title], [value], [id], respectively of its [value], [id], [label],
    [text], [name] (the empty string when none is defined). *)
Theorem normalizer_selects_first_array (resp : value) :
  buttons_of resp = uniform_model (first_array ["buttons"; "options"; "choices"] resp) /\
  dropdown_of resp = uniform_model (first_array ["dropdown"; "select_options"] resp) /\
  (forall (fields : list string) (source : value),
     first_array fields resp = Some source -> isArray source = true) /\
  (forall items : list value,
     first_array ["buttons"; "options"; "choices"] resp = Some (VArr items) ->
     exists bs : list QuickButton,
       buttons_of resp = Some bs /\ length bs = length items /\
       forall (i : nat) (o : value), items !! i = Some o ->
         bs !! i = Some (option_model (first_is_string items) o)) /\
  (forall items : list value,
     first_array ["dropdown"; "select_options"] resp = Some (VArr items) ->
     exists ds : list QuickButton,
       dropdown_of resp = Some ds /\ length ds = length items /\
       forall (i : nat) (o : value), items !! i = Some o ->
         ds !! i = Some (option_model (first_is_string items) o)).
Proof.
  assert (A : forall v, isArray v = true -> exists items, v = VArr items)
    by (intros [] E; try discriminate E; eauto).
  assert (B : buttons_of resp =
              uniform_model (first_array ["buttons"; "options"; "choices"] resp)).
  { unfold buttons_of, rawButtons, first_array. cbn [List.map List.find].
    destruct (isArray (get "buttons" resp)) eqn:E1; cbv iota;
      [destruct (A _ E1) as [items ->]; apply normalized_array|].
    destruct (isArray (get "options" resp)) eqn:E2; cbv iota;
      [destruct (A _ E2) as [items ->]; apply normalized_array|].
    destruct (isArray (get "choices" resp)) eqn:E3; cbv iota;
      [destruct (A _ E3) as [items ->]; apply normalized_array|].
    reflexivity. }
  assert (D : dropdown_of resp =
              uniform_model (first_array ["dropdown"; "select_options"] resp)).
  { unfold dropdown_of, rawDropdown, first_array. cbn [List.map List.find].
    destruct (isArray (get "dropdown" resp)) eqn:E1; cbv iota;
      [destruct (A _ E1) as [items ->]; apply normalized_array|].
    destruct (isArray (get "select_options" resp)) eqn:E2; cbv iota;
      [destruct (A _ E2) as [items ->]; apply normalized_array|].
    reflexivity. }
  assert (M : forall (items : list value) (got : option (list QuickButton)),
            got = uniform_model (Some (VArr items)) ->
            exists bs : list QuickButton,
              got = Some bs /\ length bs = length items /\
              forall (i : nat) (o : value), items !! i = Some o ->
                bs !! i = Some (option_model (first_is_string items) o)).
  { intros items got ->. eexists. split; [reflexivity|].
    split; [apply List.length_map|].
    intros i o Hi.
    change (List.map ?f ?l) with (f <$> l). rewrite list_lookup_fmap, Hi.
    reflexivity. }
  split; [exact B|]. split; [exact D|]. split.
  - intros fields source E. unfold first_array in E.
    apply List.find_some in E. apply E.
  - split; intros items E; apply M; [rewrite B | rewrite D]; now rewrite E.
Qed.

(** C3. On an array whose first element is a string, [normalizeOptions]
    maps each element [s] to [{label: String(s), value: String(s)}].  On
    any other non-empty array it maps each element [o] to the pair whose
    label is [String] of the first defined of [o.label], [o.text],
    [o.name], [o.title], [o.value], [o.id] and whose value is [String] of
    the first defined of [o.value], [o.id], [o.label], [o.text], [o.name],
    the empty string when none is defined.  On what is not an array, and
    on the empty array, the result is empty. *)
Theorem normalizeOptions_by_shape :
  (forall (s : string) (rest : list value),
     normalizeOptions (VArr (VStr s :: rest)) =
     List.map (fun x => {| label := String_of x; value_ := String_of x |})
              (VStr s :: rest)) /\
  (forall (first : value) (rest : list value),
     is_string first = false ->
     normalizeOptions (VArr (first :: rest)) =
     List.map
       (fun o =>
          {| label := String_of (first_defined
                        [get "label" o; get "text" o; get "name" o;
                         get "title" o; get "value" o; get "id" o]);
             value_ := String_of (first_defined
                        [get "value" o; get "id" o; get "label" o;
                         get "text" o; get "name" o]) |})
       (first :: rest)) /\
  (forall v : value, isArray v = false -> normalizeOptions v = []) /\
  normalizeOptions (VArr []) = [].
Proof.
  split; [reflexivity|]. split; [|split; [|reflexivity]].
  - intros first rest Hs. unfold normalizeOptions, first_is_string. rewrite Hs.
    apply List.map_ext. intros o.
    now rewrite label_of_first_defined, value_of_first_defined.
  - intros [] E; try reflexivity. discriminate E.
Qed.

End Normalizer.

(** ** Pagination *)

Section Pagination.
Import JS Chatbot.

Lemma slice_0 {A} (n : nat) (l : list A) : slice 0 n l = take n l.
Proof. unfold slice. now rewrite Nat.sub_0_r. Qed.

(** The first page: the first three properties at most, and a Show More
    button for the rest exactly when there are more than three. *)
Lemma first_page_shape (l : list value) :
  forallb readable (take 3 l) = true ->
  first_page l =
    Some (Properties
            {| cards := take 3 l;
               show_more := if (3 <? length l)%nat
                            then Some (length l - 3)%nat else None |}) /\
  length (take 3 l) = Nat.min (length l) 3.
Proof.
  intros R. unfold first_page, renderProperties. rewrite slice_0, R.
  split; [|rewrite length_take; lia].
  do 3 f_equal. destruct (Nat.ltb_spec 3 (length l)) as [L|L].
  - destruct (Nat.ltb_spec 0 (length l - 3)); [reflexivity | lia].
  - reflexivity.
Qed.

Lemma pages_append (ui : Ui) (txt : string) (p : PropertyPage) :
  pages (appendBot txt (Some (Properties p)) None None ui) = pages ui ++ [p].
Proof. unfold pages, appendBot, append; simpl. now rewrite omap_app. Qed.

Lemma pages_bind_show_more (r : Render) (ui : Ui) :
  pages (bind_show_more r ui) = pages ui.
Proof. unfold bind_show_more. now destruct (existsb _ _). Qed.

(** After a reply with properties, run in render [r]: one page more, the
    page counter React holds back at 1. *)
Lemma promptProperties_first_page (r : Render) (resp : value) (ui : Ui) :
  let l := properties_of resp in
  l <> [] -> forallb readable (take 3 l) = true ->
  let ui' := promptProperties r resp ui in
  pages ui' =
    pages ui ++ [{| cards := take 3 l;
                    show_more := if (3 <? length l)%nat
                                 then Some (length l - 3)%nat else None |}] /\
  currentPage (pagination_state ui') = 1%nat /\
  allPropertiesRef ui' = l.
Proof.
  intros l Hne R ui'. unfold ui', promptProperties. fold l.
  destruct l as [|x l'] eqn:El; [congruence|]. rewrite <- El in *.
  replace (0 <? length l)%nat with true by (rewrite El; reflexivity).
  destruct (first_page_shape l R) as [-> _].
  rewrite pages_bind_show_more, pages_append.
  unfold bind_show_more. now destruct (existsb _ _).
Qed.

(** The same after a property search. *)
Lemma searchResults_first_page (r : Render) (data : value) (ui : Ui) :
  let l := properties_of data in
  l <> [] -> forallb readable (take 3 l) = true ->
  let ui' := searchResults r data ui in
  pages ui' =
    pages ui ++ [{| cards := take 3 l;
                    show_more := if (3 <? length l)%nat
                                 then Some (length l - 3)%nat else None |}] /\
  currentPage (pagination_state ui') = 1%nat /\
  allPropertiesRef ui' = l.
Proof.
  intros l Hne R ui'. unfold ui', searchResults. fold l.
  destruct l as [|x l'] eqn:El; [congruence|]. rewrite <- El in *.
  replace (length l =? 0)%nat with false by (rewrite El; reflexivity).
  destruct (first_page_shape l R) as [-> _].
  rewrite pages_bind_show_more, pages_append.
  unfold bind_show_more. now destruct (existsb _ _).
Qed.

(** What one call of [showMore] appends depends on the render that made
    it and on the property list only: the page counter React holds plays
    no part. *)
Lemma showMore_page (r : Render) (ui : Ui) :
  let p := currentPage (pagination r) in
  let n := itemsPerPage (pagination r) in
  let all := allPropertiesRef ui in
  let next := take n (drop (p * n) all) in
  allPropertiesRef (showMore r ui) = all /\
  (next <> [] -> forallb readable next = true ->
   pages (showMore r ui) =
     pages ui ++ [{| cards := next;
                     show_more :=
                       if (0 <? length all - Nat.min (p * n + n) (length all))%nat
                       then Some (length all - Nat.min (p * n + n) (length all))%nat
                       else None |}] /\
   currentPage (pagination_state (showMore r ui)) = S p) /\
  (next = [] -> showMore r ui = ui).
Proof.
  intros p n all next. unfold showMore. fold p n all.
  replace ((p + 1 - 1) * n)%nat with (p * n)%nat by lia.
  assert (Es : slice (p * n) (Nat.min (p * n + n) (length all)) all = next).
  { unfold slice, next.
    destruct (Nat.le_ge_cases (p * n + n) (length all)) as [L|L].
    - rewrite Nat.min_l by lia. f_equal. lia.
    - rewrite Nat.min_r by lia.
      rewrite (take_ge (drop (p * n) all) n) by (rewrite length_drop; lia).
      apply take_ge. rewrite length_drop. lia. }
  rewrite Es.
  destruct next as [|x next'] eqn:En.
  - simpl. repeat split; congruence.
  - rewrite <- En in *. replace (length next =? 0)%nat with false
      by (rewrite En; reflexivity).
    unfold renderProperties.
    destruct (forallb readable next) eqn:R.
    + split; [|split].
      * unfold bind_show_more. now destruct (existsb _ _).
      * intros _ _. rewrite pages_bind_show_more. split.
        -- unfold pages, setCurrentPage, appendBot, append; simpl.
           now rewrite omap_app.
        -- unfold bind_show_more. destruct (existsb _ _); simpl; lia.
      * rewrite En. discriminate.
    + split; [reflexivity|]. split; [congruence|]. rewrite En. discriminate.
Qed.

(** A second call of the [showMore] of the same render appends the page
    the first call appended: the render's page counter has not moved. *)
Lemma showMore_again (r : Render) (ui : Ui) :
  let p := currentPage (pagination r) in
  let n := itemsPerPage (pagination r) in
  let next := take n (drop (p * n) (allPropertiesRef ui)) in
  next <> [] -> forallb readable next = true ->
  exists page : PropertyPage,
    cards page = next /\
    pages (showMore r ui) = pages ui ++ [page] /\
    pages (showMore r (showMore r ui)) = pages ui ++ [page; page].
Proof.
  intros p n next Hne R.
  destruct (showMore_page r ui) as (Ha & Hp & _). cbv zeta in Ha, Hp.
  destruct (Hp Hne R) as [Hp1 _].
  destruct (showMore_page r (showMore r ui)) as (_ & Hq & _). cbv zeta in Hq.
  rewrite Ha in Hq. destruct (Hq Hne R) as [Hq1 _].
  eexists. split; [|split; [exact Hp1|]].
  - reflexivity.
  - rewrite Hq1, Hp1, <- app_assoc. reflexivity.
Qed.

End Pagination.

(** ** The definitions at work *)

Section Demo_runs.
Import JS Api Chatbot Demo.

(** One call of [http] against the scripted backend: login, 401, refresh,
    retry; the two fetches carry the token of their moment. *)
Example demo_http_run :
  fst (http "/chatbot" None fresh) = Resolved (VObj []) /\
  List.map (fun r => headers (options r))
    (doFetches (issued fresh (snd (http "/chatbot" None fresh)))) =
  [ Some [("Content-Type", "application/json"); ("Authorization", "Bearer a1")];
    Some [("Content-Type", "application/json"); ("Authorization", "Bearer a2")] ] /\
  tokens (snd (http "/chatbot" None fresh)) = ("a2", "r1", Num (3000 + 900000 - 5000)).
Proof. vm_compute. repeat split. Qed.

(** [loginIfNeeded] on the fresh module: the login request goes out and
    the bundle of the answer is saved one second later. *)
Example demo_login :
  issued fresh (snd (loginIfNeeded fresh)) = [(AtLogin, login_request)] /\
  tokens (snd (loginIfNeeded fresh)) = ("a1", "r1", Num (1000 + 60000 - 5000)) /\
  getItem "cb_access_expires_at" (snd (loginIfNeeded fresh)) = Some "56000".
Proof. vm_compute. repeat split. Qed.

End Demo_runs.

Section Demo_pagination.
Import JS Api Chatbot Demo.

(** C6, at a reply with seven properties shown by the first render.  The
    first page holds the first three properties and announces four more;
    the first click on Show More shows the next three.  The second click
    shows those same three again and not the seventh property: the
    [showMore] bound to the button reads the page counter of the render
    that created it, which is still 1. *)
Example show_more_twice_repeats_second_page :
  let first := promptProperties (render Chatbot.initial) seven Chatbot.initial in
  let second := click_show_more first in
  let third := click_show_more second in
  List.map cards (pages first) = [[property 0; property 1; property 2]] /\
  List.map show_more (pages first) = [Some 4%nat] /\
  List.map cards (pages second) =
    [[property 0; property 1; property 2]; [property 3; property 4; property 5]] /\
  List.map cards (pages third) =
    [[property 0; property 1; property 2]; [property 3; property 4; property 5];
     [property 3; property 4; property 5]] /\
  List.map show_more (pages third) = [Some 4%nat; Some 1%nat; Some 1%nat] /\
  currentPage (pagination_state third) = 2%nat.
Proof. vm_compute. repeat split. Qed.

(** For comparison, [showMore] run each time with the page counter React
    holds at that moment walks through the list and then stops. *)
Example show_more_with_current_page :
  let first := promptProperties (render Chatbot.initial) seven Chatbot.initial in
  let second := showMore (render first) first in
  let third := showMore (render second) second in
  List.map cards (pages third) =
    [[property 0; property 1; property 2]; [property 3; property 4; property 5];
     [property 6]] /\
  List.map show_more (pages third) = [Some 4%nat; Some 1%nat; None] /\
  showMore (render third) third = third.
Proof. vm_compute. repeat split. Qed.

(** The normalizer on a reply whose [buttons] is not an array and whose
    [options] holds objects: [null] and missing fields are passed over. *)
Example demo_normalizer :
  buttons_of
    (VObj [("buttons", VStr "none");
           ("options",
            VArr [VObj [("label", VNull); ("text", VStr "Two beds"); ("id", VNum 2)];
                  VObj [("value", VStr "gt"); ("name", VStr "George Town")];
                  VNull])]) =
  Some [ {| label := "Two beds"; value_ := "2" |};
         {| label := "George Town"; value_ := "gt" |};
         {| label := ""; value_ := "" |} ] /\
  dropdown_of (VObj [("select_options", VArr [VStr "1"; VNum 2])]) =
  Some [ {| label := "1"; value_ := "1" |}; {| label := "2"; value_ := "2" |} ] /\
  buttons_of (VObj [("result", VStr "hello")]) = None.
Proof. vm_compute. repeat split. Qed.

End Demo_pagination.

Section Demo_http.
Import JS Api Chatbot Demo.


End Demo_http.

Section Demo_refresh_down.
Import JS Api DemoRefreshDown.

(** C1 as stated fails when the refresh fails by rejecting.  Take
    [getChatbotOptions()], that is [http('/chatbot/get-chatbot-options')],
    against the backend of [DemoRefreshDown]: the first response is a 401,
    no static token is configured and [refreshIfPossible] does not return
    true, its fetch being rejected.  The target is fetched once, yet the
    401 is not the final response: [http] never reaches its result
    handling, which would have rejected with "HTTP 401: token expired",
    and rejects with the exception of the refresh instead. *)
Lemma failed_refresh_leaves_no_final_response :
  let path := "/chatbot/get-chatbot-options" in
  let s0 := snd (loginIfNeeded fresh) in
  let first := target_request (BASE_URL +:+ path) None (ACCESS_TOKEN s0) in
  let s1 := arrival AtDoFetch first s0 in
  let res := {| status := 401; Api.text := Some "token expired" |} in
  getChatbotOptions = http path None /\
  answer first s0 = Responds res /\
  STATIC_BEARER = "" /\
  fst (refreshIfPossible s1) = Rejected FetchFailed /\
  doFetches (issued fresh (snd (http path None fresh))) = [first] /\
  fst (http_response path None fresh) <> Resolved res /\
  fst (http_result res s1) = Rejected (Error "HTTP 401: token expired") /\
  fst (http path None fresh) = Rejected FetchFailed.
Proof.
  cbv zeta. split; [reflexivity|].
  split; [vm_compute; reflexivity|]. split; [reflexivity|].
  split; [vm_compute; reflexivity|]. split; [vm_compute; reflexivity|].
  split; [|split; vm_compute; reflexivity].
  assert (E : fst (http_response "/chatbot/get-chatbot-options" None fresh) =
              Rejected FetchFailed)
    by (vm_compute; reflexivity).
  rewrite E. discriminate.
Qed.

End Demo_refresh_down.

(* ===================================================================== *)
(** * Further properties of the HTTP client                               *)
(* ===================================================================== *)

(** ** The order of requests *)

Section Http_sequence.
Import JS Api.
Context `{Browser}.

Lemma loginIfNeeded_issued (s : State) :
  issued s (snd (loginIfNeeded s)) = [] \/
  issued s (snd (loginIfNeeded s)) = [(AtLogin, login_request)].
Proof.
  rewrite loginIfNeeded_run.
  assert (Hf : forall x : State,
            sent x = sent (arrival AtLogin login_request (loadTokens s)) ->
            issued s x = [(AtLogin, login_request)]).
  { intros x E. apply issued_app. now rewrite E, sent_arrival. }
  destruct (truthy_string STATIC_BEARER); [left; now apply issued_same|].
  cbv zeta.
  destruct (_ && _); [left; now apply issued_same|].
  destruct (_ || _); [left; now apply issued_same|].
  right.
  destruct (answer _ _) as [|res]; [now apply Hf|].
  destruct (ok res); [|now apply Hf].
  destruct (res_json _ _ _) as [[data|e] ?]; now apply Hf.
Qed.

Lemma refreshIfPossible_issued (s : State) :
  issued s (snd (refreshIfPossible s)) = [] \/
  issued s (snd (refreshIfPossible s)) =
    [(AtRefresh, refresh_request (REFRESH_TOKEN s))].
Proof.
  rewrite refreshIfPossible_run.
  set (req := refresh_request (REFRESH_TOKEN s)).
  assert (Hf : forall x : State, sent x = sent (arrival AtRefresh req s) ->
            issued s x = [(AtRefresh, req)]).
  { intros x E. apply issued_app. now rewrite E, sent_arrival. }
  destruct (negb _); [left; now apply issued_same|]. cbv zeta. right.
  destruct (answer _ _) as [|res]; [now apply Hf|].
  destruct (ok res); [|now apply Hf].
  destruct (res_json _ _ _) as [[data|e] ?]; now apply Hf.
Qed.

Lemma sent_extends_login (s : State) :
  sent (snd (loginIfNeeded s)) = sent s ++ issued s (snd (loginIfNeeded s)).
Proof.
  destruct (loginIfNeeded_sent s) as (evs & E & _).
  now rewrite (issued_app _ _ _ E).
Qed.

Lemma sent_extends_refresh (s : State) :
  sent (snd (refreshIfPossible s)) = sent s ++ issued s (snd (refreshIfPossible s)).
Proof.
  destruct (refreshIfPossible_sent s) as (evs & E & _).
  now rewrite (issued_app _ _ _ E).
Qed.

(** Everything one call of [http] sends, in order. *)
Lemma http_issued (path : string) (init : option RequestInit) (s : State) :
  let url_ := BASE_URL +:+ path in
  let s0 := snd (loginIfNeeded s) in
  let first := target_request url_ init (ACCESS_TOKEN s0) in
  let s1 := arrival AtDoFetch first s0 in
  issued s (snd (http path init s)) =
  issued s s0 ++ [(AtDoFetch, first)] ++
  match answer first s0 with
  | NetworkFailure => []
  | Responds res =>
      if Z.eqb (status res) 401 && negb (truthy_string STATIC_BEARER) then
        issued s1 (snd (refreshIfPossible s1)) ++
        match fst (refreshIfPossible s1) with
        | Resolved true =>
            [(AtDoFetch,
              target_request url_ init (ACCESS_TOKEN (snd (refreshIfPossible s1))))]
        | _ => []
        end
      else []
  end.
Proof.
  intros url_ s0 first s1.
  unfold issued at 1. rewrite sent_http, http_response_run. cbv zeta.
  fold url_ s0 first s1.
  assert (E1 : sent s1 = sent s ++ issued s s0 ++ [(AtDoFetch, first)]).
  { unfold s1. rewrite sent_arrival. unfold s0 at 1.
    now rewrite sent_extends_login, <- app_assoc. }
  destruct (answer first s0) as [|res].
  { cbn [snd]. now rewrite E1, drop_app_length, app_nil_r. }
  destruct (_ && _).
  2:{ cbn [snd]. now rewrite E1, drop_app_length, app_nil_r. }
  pose proof (sent_extends_refresh s1) as E2.
  destruct (refreshIfPossible s1) as [[[|]|e] s2]; cbn [fst snd] in *.
  - rewrite fetch_run. cbn [snd]. rewrite sent_arrival, E2, E1.
    now rewrite <- !app_assoc, drop_app_length.
  - rewrite E2, E1, <- !app_assoc, drop_app_length. now rewrite app_nil_r.
  - rewrite E2, E1, <- !app_assoc, drop_app_length. now rewrite app_nil_r.
Qed.

(** X1. One call of [http] sends at most four requests, in this order: the
    login request (if any), the first fetch of the target, the refresh
    request (if any), the retry (only after a refresh request). *)
Theorem http_requests_in_order
    (path : string) (init : option RequestInit) (s : State) :
  let url_ := BASE_URL +:+ path in
  let s0 := snd (loginIfNeeded s) in
  let first := target_request url_ init (ACCESS_TOKEN s0) in
  let s1 := arrival AtDoFetch first s0 in
  let refresh := (AtRefresh, refresh_request (REFRESH_TOKEN s1)) in
  exists L R : list (Site * Request),
    issued s (snd (http path init s)) = L ++ [(AtDoFetch, first)] ++ R /\
    (L = [] \/ L = [(AtLogin, login_request)]) /\
    (R = [] \/ R = [refresh] \/
     exists second, url second = url_ /\ R = [refresh; (AtDoFetch, second)]) /\
    (length (issued s (snd (http path init s))) <= 4)%nat.
Proof.
  intros url_ s0 first s1 refresh.
  pose proof (http_issued path init s) as E. cbv zeta in E.
  fold url_ s0 first s1 in E.
  eexists _, _. split; [exact E|].
  pose proof (loginIfNeeded_issued s) as HL. fold s0 in HL.
  split; [exact HL|].
  assert (HR :
    let R := match answer first s0 with
      | NetworkFailure => []
      | Responds res =>
          if Z.eqb (status res) 401 && negb (truthy_string STATIC_BEARER) then
            issued s1 (snd (refreshIfPossible s1)) ++
            match fst (refreshIfPossible s1) with
            | Resolved true =>
                [(AtDoFetch,
                  target_request url_ init
                    (ACCESS_TOKEN (snd (refreshIfPossible s1))))]
            | _ => []
            end
          else []
      end in
    R = [] \/ R = [refresh] \/
    exists second, url second = url_ /\ R = [refresh; (AtDoFetch, second)]).
  { cbv zeta. destruct (answer first s0) as [|res]; [now left|].
    destruct (_ && _); [|now left].
    pose proof (refreshIfPossible_issued s1) as [I|I]; rewrite I;
      pose proof (refreshIfPossible_run s1) as Run.
    - (* nothing sent: the refresh token was empty, the result is false *)
      destruct (truthy_string (REFRESH_TOKEN s1)) eqn:T; simpl in Run.
      + exfalso. rewrite Run in I. clear Run.
        assert (forall x : State,
                  sent x = sent (arrival AtRefresh (refresh_request (REFRESH_TOKEN s1)) s1)
                  -> issued s1 x <> []) as N.
        { intros x Ex. rewrite (issued_app s1 x [(AtRefresh, refresh_request (REFRESH_TOKEN s1))]);
            [discriminate | now rewrite Ex, sent_arrival]. }
        destruct (answer _ s1) as [|r']; [now apply N in I|].
        destruct (ok r'); [|now apply N in I].
        destruct (res_json _ _ _) as [[d|e] ?]; now apply N in I.
      + rewrite Run. now left.
    - destruct (fst (refreshIfPossible s1)) as [[|]|e].
      + right. right. eexists. split; [|reflexivity]. reflexivity.
      + right. now left.
      + right. now left. }
  cbv zeta in HR. split; [exact HR|].
  rewrite E. rewrite !length_app. cbn [length].
  destruct HL as [-> | ->]; destruct HR as [-> | [-> | (second & _ & ->)]];
    cbn [length]; lia.
Qed.

End Http_sequence.

(** ** Static bearer mode *)

Section Http_static.
Import JS Api.
Context `{Browser}.

(** X2. With a static bearer token configured, one call of [http] sends
    exactly one request, the target built from the static token: no
    login, no refresh and no retry, whatever the backend answers.
    [localStorage] and the refresh token are left as they were and the
    static token becomes the access token. *)
Theorem http_static_bearer_single_request
    (path : string) (init : option RequestInit) (s : State) :
  STATIC_BEARER <> "" ->
  let s' := snd (http path init s) in
  issued s s' =
    [(AtDoFetch, target_request (BASE_URL +:+ path) init STATIC_BEARER)] /\
  localStorage s' = localStorage s /\
  ACCESS_TOKEN s' = STATIC_BEARER /\
  REFRESH_TOKEN s' = REFRESH_TOKEN s.
Proof.
  intros Hs s'. apply truthy_string_true in Hs.
  pose proof (http_issued path init s) as E. cbv zeta in E.
  assert (E0 : snd (loginIfNeeded s) =
               set_tokens STATIC_BEARER (REFRESH_TOKEN s)
                 (Num (Date_now s + 3600000)) s).
  { rewrite loginIfNeeded_run, Hs. reflexivity. }
  rewrite E0, Hs in E. cbn [negb ACCESS_TOKEN set_tokens] in E.
  split.
  { unfold s'. rewrite E.
    rewrite issued_same by reflexivity.
    destruct (answer _ _) as [|res]; [reflexivity|].
    now rewrite andb_false_r. }
  assert (Es : s' = arrival AtDoFetch
                 (target_request (BASE_URL +:+ path) init STATIC_BEARER)
                 (set_tokens STATIC_BEARER (REFRESH_TOKEN s)
                    (Num (Date_now s + 3600000)) s)).
  { unfold s'. rewrite http_run, http_response_run. cbv zeta.
    rewrite E0, Hs. cbn [negb ACCESS_TOKEN set_tokens].
    destruct (answer _ _) as [|res]; [reflexivity|].
    now rewrite andb_false_r. }
  rewrite Es. rewrite localStorage_arrival.
  pose proof (tokens_arrival AtDoFetch
                (target_request (BASE_URL +:+ path) init STATIC_BEARER)
                (set_tokens STATIC_BEARER (REFRESH_TOKEN s)
                   (Num (Date_now s + 3600000)) s)) as T.
  injection T as Ta Tr Te. now rewrite Ta, Tr.
Qed.

End Http_static.

Section Http_static_demo.
Import JS Api DemoStatic.

(** X2 at the refusing backend: the 401 is not followed by a refresh. *)
Lemma http_static_bearer_single_request_witness :
  STATIC_BEARER <> "" /\
  issued fresh (snd (http "/chatbot" None fresh)) =
    [(AtDoFetch, target_request (BASE_URL +:+ "/chatbot") None STATIC_BEARER)] /\
  localStorage (snd (http "/chatbot" None fresh)) = localStorage fresh /\
  ACCESS_TOKEN (snd (http "/chatbot" None fresh)) = STATIC_BEARER /\
  REFRESH_TOKEN (snd (http "/chatbot" None fresh)) = REFRESH_TOKEN fresh.
Proof.
  assert (N : STATIC_BEARER <> "") by discriminate.
  split; [exact N|].
  exact (http_static_bearer_single_request "/chatbot" None fresh N).
Defined.

End Http_static_demo.

(** ** What the client leaves alone in storage *)

Section Storage_frame.
Import JS Api.
Context `{Browser}.

Lemma same_elsewhere_refl (s : State) : same_elsewhere s s.
Proof. now intros k _ _ _. Qed.

Lemma same_elsewhere_trans (a b c : State) :
  same_elsewhere a b -> same_elsewhere b c -> same_elsewhere a c.
Proof. intros Hab Hbc k K1 K2 K3. now rewrite Hbc, Hab. Qed.

Lemma same_elsewhere_storage (s s' : State) :
  localStorage s' = localStorage s -> same_elsewhere s s'.
Proof. intros E k _ _ _. unfold getItem. now rewrite E. Qed.

Lemma same_elsewhere_saveTokens (bundle : TokenBundle) (s : State) :
  same_elsewhere s (saveTokens bundle s).
Proof.
  intros k K1 K2 K3. unfold saveTokens. rewrite !getItem_setItem.
  repeat case_decide; try congruence. reflexivity.
Qed.

Lemma same_elsewhere_login (s : State) : same_elsewhere s (snd (loginIfNeeded s)).
Proof.
  rewrite loginIfNeeded_run.
  assert (Ha : same_elsewhere s (arrival AtLogin login_request (loadTokens s))).
  { apply same_elsewhere_storage. now rewrite localStorage_arrival. }
  destruct (truthy_string STATIC_BEARER); [now apply same_elsewhere_storage|].
  cbv zeta.
  destruct (_ && _); [now apply same_elsewhere_storage|].
  destruct (_ || _); [now apply same_elsewhere_storage|].
  destruct (answer _ _) as [|res]; [exact Ha|].
  destruct (ok res); [|exact Ha].
  destruct (res_json _ _ _) as [[data|e] ?]; [|exact Ha].
  eapply same_elsewhere_trans; [exact Ha | apply same_elsewhere_saveTokens].
Qed.

Lemma same_elsewhere_refresh (s : State) :
  same_elsewhere s (snd (refreshIfPossible s)).
Proof.
  rewrite refreshIfPossible_run.
  set (req := refresh_request (REFRESH_TOKEN s)).
  assert (Ha : same_elsewhere s (arrival AtRefresh req s)).
  { apply same_elsewhere_storage. now rewrite localStorage_arrival. }
  destruct (negb _); [apply same_elsewhere_refl|]. cbv zeta.
  destruct (answer _ _) as [|res]; [exact Ha|].
  destruct (ok res); [|exact Ha].
  destruct (res_json _ _ _) as [[data|e] ?]; [|exact Ha].
  eapply same_elsewhere_trans; [exact Ha | apply same_elsewhere_saveTokens].
Qed.

Lemma same_elsewhere_http (path : string) (init : option RequestInit) (s : State) :
  same_elsewhere s (snd (http path init s)).
Proof.
  rewrite http_run.
  assert (E : same_elsewhere s (snd (http_response path init s))).
  { rewrite http_response_run. cbv zeta.
    set (s0 := snd (loginIfNeeded s)).
    set (first := target_request _ init (ACCESS_TOKEN s0)).
    assert (H1 : same_elsewhere s (arrival AtDoFetch first s0)).
    { eapply same_elsewhere_trans; [apply same_elsewhere_login|].
      apply same_elsewhere_storage. now rewrite localStorage_arrival. }
    destruct (answer first s0) as [|res]; [exact H1|].
    destruct (_ && _); [|exact H1].
    pose proof (same_elsewhere_refresh (arrival AtDoFetch first s0)) as H2.
    destruct (refreshIfPossible _) as [[[|]|e] s2]; cbn [snd] in *.
    - rewrite fetch_run. cbn [snd].
      eapply same_elsewhere_trans; [exact H1|].
      eapply same_elsewhere_trans; [exact H2|].
      apply same_elsewhere_storage. now rewrite localStorage_arrival.
    - eapply same_elsewhere_trans; [exact H1 | exact H2].
    - eapply same_elsewhere_trans; [exact H1 | exact H2]. }
  now destruct (http_response path init s) as [[res|e] s'].
Qed.

(** X3. Whatever an exported call does (login, refresh, retry, failure),
    it writes [localStorage] under the three keys of the token store only:
    every other entry, the chat's own [chatbot_user_id] and
    [chatbot_search_state] among them, is what it was before the call. *)
Theorem exported_calls_keep_other_storage (c : Call) (s : State) (k : string) :
  k <> "cb_access_token" -> k <> "cb_refresh_token" ->
  k <> "cb_access_expires_at" ->
  getItem k (snd (run c s)) = getItem k s.
Proof.
  revert k. change (same_elsewhere s (snd (run c s))).
  destruct c as [|query|message|b]; cbn [run];
    unfold getChatbotOptions, propertySearch, extractParams;
    try apply same_elsewhere_http.
  unfold sendChat, bind.
  pose proof (same_elsewhere_http "/chatbot" (post (ChatBody_value b)) s) as E.
  now destruct (http _ _ s) as [[v|e] s'].
Qed.

End Storage_frame.

Section Storage_frame_demo.
Import JS Api Demo.

(** X3 at the scripted backend, for the stored user id of the chat. *)
Lemma exported_calls_keep_other_storage_witness :
  let s := Api.initial {[ "chatbot_user_id" := "u-1" ]} 0 in
  let b := {| user_id := "u-1"; prompt := "hello"; property_data := None |} in
  getItem "chatbot_user_id" (snd (run (SendChat b) s)) = Some "u-1".
Proof.
  cbv zeta.
  rewrite (exported_calls_keep_other_storage
             (SendChat {| user_id := "u-1"; prompt := "hello"; property_data := None |})
             (Api.initial {[ "chatbot_user_id" := "u-1" ]} 0) "chatbot_user_id");
    [reflexivity | discriminate | discriminate | discriminate].
Defined.

End Storage_frame_demo.

(** ** What [http] settles to *)

Section Http_outcome.
Import JS Api.
Context `{Browser}.

Lemma prefix_append (a b : string) : String.prefix a (a +:+ b) = true.
Proof.
  induction a as [|c a IH]; simpl; [now destruct b|].
  destruct (ascii_dec c c); [exact IH | congruence].
Qed.

Lemma append_assoc (a b c : string) : (a +:+ b) +:+ c = a +:+ (b +:+ c).
Proof.
  induction a as [|x a IH]; [reflexivity|].
  change (String x ((a +:+ b) +:+ c) = String x (a +:+ (b +:+ c))).
  now rewrite IH.
Qed.

Lemma refreshIfPossible_no_Error (s : State) (msg : string) :
  fst (refreshIfPossible s) <> Rejected (Error msg).
Proof.
  rewrite refreshIfPossible_run.
  destruct (negb _); [discriminate|]. cbv zeta.
  destruct (answer _ _) as [|res]; [discriminate|].
  destruct (ok res); [|discriminate].
  unfold res_json. destruct (text res) as [t|]; [|discriminate].
  destruct (json_as_AccessGrant t); discriminate.
Qed.

Lemma http_response_no_Error (path : string) (init : option RequestInit)
    (s : State) (msg : string) :
  fst (http_response path init s) <> Rejected (Error msg).
Proof.
  rewrite http_response_run. cbv zeta.
  destruct (answer _ _) as [|res]; [discriminate|].
  destruct (_ && _); [|discriminate].
  pose proof (refreshIfPossible_no_Error
                (arrival AtDoFetch
                   (target_request (BASE_URL +:+ path) init
                      (ACCESS_TOKEN (snd (loginIfNeeded s))))
                   (snd (loginIfNeeded s))) msg) as N.
  destruct (refreshIfPossible _) as [[[|]|e] s2]; cbn [fst] in *; try discriminate.
  - rewrite fetch_run. destruct (answer _ _); discriminate.
  - congruence.
Qed.

(** X4. [http] resolves only from an ok response whose body could be
    read: with the empty object when that body is empty, with the parse of
    the body otherwise.  It never resolves on a response that is not ok. *)
Theorem http_resolves_only_from_ok_body
    (path : string) (init : option RequestInit) (s : State) (v : value) :
  fst (http path init s) = Resolved v ->
  exists (res : Response) (t : string),
    fst (http_response path init s) = Resolved res /\
    ok res = true /\ text res = Some t /\
    ((t = "" /\ v = VObj []) \/ (t <> "" /\ JSON_parse t = Some v)).
Proof.
  rewrite http_run.
  destruct (http_response path init s) as [[res|e] s1]; cbn [fst]; [|discriminate].
  unfold http_result. destruct (ok res) eqn:Hok; cbn [negb]; [|discriminate].
  unfold bind, res_text. destruct (text res) as [t|] eqn:Et; [|discriminate].
  cbn. destruct t as [|c t]; cbn.
  - intros [= <-]. exists res, "". repeat split; trivial. now left.
  - destruct (JSON_parse (String c t)) as [json|] eqn:Ej; cbn; [|discriminate].
    intros [= <-]. exists res, (String c t). repeat split; trivial.
    right. split; [discriminate | exact Ej].
Qed.

(** X5. Every rejection of [http] has one of four causes.  (1) The
    fetch phase was cut short by an exception of the engine, which is
    passed on unchanged: a target fetch was rejected, or the refresh was
    (its fetch, the reading or the parsing of its body).  (2) The final
    response is not ok: the module's own [new Error] "HTTP <status>..."
    (line 120).  (3) The body of an ok final response cannot be read: the
    engine's exception of that reading.  (4) That body is not empty and
    not JSON: the module's own [new Error] "Invalid JSON response"
    (line 130).  The [new Error] "Auth login failed: ..." of
    [loginIfNeeded] is none of them: line 90 swallows it. *)
Theorem http_rejections_by_cause
    (path : string) (init : option RequestInit) (s : State) (e : Exn) :
  fst (http path init s) = Rejected e ->
  ((fst (http_response path init s) = Rejected e /\
    (e = FetchFailed \/ e = BodyFailed \/ e = SyntaxError)) \/
   (exists res : Response,
      fst (http_response path init s) = Resolved res /\
      ((ok res = false /\
        exists detail : string,
          e = Error ("HTTP " +:+ String_of_Z (status res) +:+ detail)) \/
       (ok res = true /\ text res = None /\ e = BodyFailed) \/
       (ok res = true /\
        exists t : string,
          text res = Some t /\ t <> "" /\ JSON_parse t = None /\
          e = Error "Invalid JSON response")))) /\
  (forall status_text : string,
     e <> Error ("Auth login failed: HTTP " +:+ status_text)).
Proof.
  intros E.
  assert (C : (fst (http_response path init s) = Rejected e /\
               (e = FetchFailed \/ e = BodyFailed \/ e = SyntaxError)) \/
              (exists res : Response,
                 fst (http_response path init s) = Resolved res /\
                 ((ok res = false /\
                   exists detail : string,
                     e = Error ("HTTP " +:+ String_of_Z (status res) +:+ detail)) \/
                  (ok res = true /\ text res = None /\ e = BodyFailed) \/
                  (ok res = true /\
                   exists t : string,
                     text res = Some t /\ t <> "" /\ JSON_parse t = None /\
                     e = Error "Invalid JSON response")))).
  { revert E. rewrite http_run.
    pose proof (http_response_no_Error path init s) as N.
    destruct (http_response path init s) as [[res|e'] s1]; cbn [fst] in *.
    2:{ intros [= <-]. left. split; [reflexivity|].
        destruct e' as [msg| | |]; auto. now destruct (N msg). }
    intros E. right. exists res. split; [reflexivity|]. revert E.
    unfold http_result. destruct (ok res) eqn:Hok; cbn [negb].
    - unfold bind, res_text. destruct (text res) as [t|] eqn:Et.
      2:{ cbn. intros [= <-]. right. left. auto. }
      cbn. destruct t as [|c t]; cbn; [discriminate|].
      destruct (JSON_parse _) eqn:Ej; cbn; [discriminate|]. intros [= <-].
      right. right. split; [reflexivity|]. exists (String c t).
      repeat split; trivial. discriminate.
    - cbn. intros [= <-]. left. split; [reflexivity|]. eexists. reflexivity. }
  split; [exact C|].
  intros status_text ->.
  destruct C as [[_ [C|[C|C]]]|(res & _ & [(_ & detail & C)|[(_ & _ & C)|(_ & t & _ & _ & _ & C)]])];
    try discriminate C; cbv in C; discriminate C.
Qed.

End Http_outcome.

Section Http_outcome_demo.
Import JS Api.

(** X4 at the scripted backend of [Demo]. *)
Lemma http_resolves_only_from_ok_body_witness :
  fst (@http Demo.browser "/chatbot" None Demo.fresh) = Resolved (VObj []) /\
  exists (res : Response) (t : string),
    fst (@http_response Demo.browser "/chatbot" None Demo.fresh) = Resolved res /\
    ok res = true /\ Api.text res = Some t /\
    ((t = "" /\ VObj [] = VObj []) \/
     (t <> "" /\ @JSON_parse Demo.browser t = Some (VObj []))).
Proof.
  assert (E : fst (@http Demo.browser "/chatbot" None Demo.fresh) = Resolved (VObj []))
    by (vm_compute; reflexivity).
  split; [exact E|].
  exact (@http_resolves_only_from_ok_body Demo.browser "/chatbot" None Demo.fresh _ E).
Defined.

(** X5 at the backend of [DemoDown], for [getChatbotOptions()]: the login
    is refused with 403, the call itself with 500; the caller sees the 500
    only. *)
Lemma http_rejections_by_cause_witness :
  let path := "/chatbot/get-chatbot-options" in
  let e := Error "HTTP 500: boom" in
  fst (@loginIfNeeded DemoDown.browser DemoDown.fresh) =
    Rejected (Error "Auth login failed: HTTP 403") /\
  fst (@http DemoDown.browser path None DemoDown.fresh) = Rejected e /\
  exists res : Response,
    fst (@http_response DemoDown.browser path None DemoDown.fresh) =
      Resolved res /\
    ok res = false /\
    exists detail : string,
      e = Error ("HTTP " +:+ String_of_Z (status res) +:+ detail).
Proof.
  cbv zeta.
  assert (E : fst (@http DemoDown.browser "/chatbot/get-chatbot-options" None
                     DemoDown.fresh) =
              Rejected (Error "HTTP 500: boom"))
    by (vm_compute; reflexivity).
  split; [vm_compute; reflexivity|]. split; [exact E|].
  destruct (proj1 (@http_rejections_by_cause DemoDown.browser
                     "/chatbot/get-chatbot-options" None DemoDown.fresh _ E))
    as [[_ [C|[C|C]]]|(res & R & [(Hok & D)|[(_ & _ & C)|(_ & t & _ & _ & _ & C)]])];
    try discriminate C.
  exists res. auto.
Defined.

End Http_outcome_demo.

(** ** Refresh and retry *)

Section Http_refresh.
Import JS Api.
Context `{Browser}.


(** X6. When the first response is 401 and no refresh can be tried (a
    static bearer token is configured, or the module holds no refresh
    token after the login attempt), nothing is sent after the first fetch
    and [http] rejects with an [Error] whose message begins "HTTP 401". *)
Theorem http_401_without_refresh_token
    (path : string) (init : option RequestInit) (s : State) (res : Response) :
  let s0 := snd (loginIfNeeded s) in
  let first := target_request (BASE_URL +:+ path) init (ACCESS_TOKEN s0) in
  answer first s0 = Responds res -> status res = 401 ->
  STATIC_BEARER <> "" \/ REFRESH_TOKEN s0 = "" ->
  issued s (snd (http path init s)) = issued s s0 ++ [(AtDoFetch, first)] /\
  exists detail : string,
    fst (http path init s) = Rejected (Error ("HTTP 401" +:+ detail)).
Proof.
  intros s0 first Ea E401 Hno.
  set (s1 := arrival AtDoFetch first s0).
  assert (Hok : ok res = false) by (unfold ok; now rewrite E401).
  assert (Hr : Z.eqb (status res) 401 && negb (truthy_string STATIC_BEARER) = true ->
               refreshIfPossible s1 = (Resolved false, s1)).
  { intros C. apply andb_true_iff in C as [_ C]. apply negb_true_iff in C.
    destruct Hno as [Hs | Hs]; [apply truthy_string_true in Hs; congruence|].
    rewrite refreshIfPossible_run.
    pose proof (tokens_arrival AtDoFetch first s0) as T. fold s1 in T.
    injection T as _ Tr _. now rewrite Tr, Hs. }
  split.
  - pose proof (http_issued path init s) as E. cbv zeta in E.
    fold s0 first s1 in E. rewrite E, Ea.
    destruct (_ && _) eqn:C; [|reflexivity].
    rewrite (Hr eq_refl). cbn [fst snd].
    rewrite (issued_same s1 s1) by reflexivity. reflexivity.
  - assert (P : http_response path init s = (Resolved res, s1)).
    { rewrite http_response_run. cbv zeta. fold s0 first s1. rewrite Ea.
      destruct (_ && _) eqn:C; [|reflexivity]. now rewrite (Hr eq_refl). }
    rewrite http_run, P. cbn [fst]. unfold http_result. rewrite Hok, E401.
    cbn [negb]. eexists. reflexivity.
Qed.


End Http_refresh.

Section Http_refresh_demo.
Import JS Api.

(** X6 at the refusing backend of [DemoStatic]. *)
Lemma http_401_without_refresh_token_witness :
  let s0 := snd (@loginIfNeeded DemoStatic.browser DemoStatic.fresh) in
  let first := target_request
                 (@BASE_URL DemoStatic.browser +:+ "/chatbot") None (ACCESS_TOKEN s0) in
  let s' := snd (@http DemoStatic.browser "/chatbot" None DemoStatic.fresh) in
  fst (@http DemoStatic.browser "/chatbot" None DemoStatic.fresh) =
    Rejected (Error "HTTP 401: denied") /\
  issued DemoStatic.fresh s' = issued DemoStatic.fresh s0 ++ [(AtDoFetch, first)] /\
  exists detail : string,
    fst (@http DemoStatic.browser "/chatbot" None DemoStatic.fresh) =
      Rejected (Error ("HTTP 401" +:+ detail)).
Proof.
  cbv zeta. split; [vm_compute; reflexivity|].
  apply (@http_401_without_refresh_token DemoStatic.browser "/chatbot" None
           DemoStatic.fresh {| status := 401; Api.text := Some "denied" |});
    [reflexivity | reflexivity | left; discriminate].
Defined.


End Http_refresh_demo.

(** ** Which token goes out, and for how long a saved one is used *)

Section Token_use.
Import JS Api.
Context `{Browser}.

Lemma ACCESS_TOKEN_arrival (site : Site) (req : Request) (s : State) :
  ACCESS_TOKEN (arrival site req s) = ACCESS_TOKEN s.
Proof. pose proof (tokens_arrival site req s) as T. now injection T. Qed.


End Token_use.

Section Token_use_demo.
Import JS Api Demo.


End Token_use_demo.

(** ** The exported calls *)

Section Exported_calls.
Import JS Api.
Context `{Browser}.

Lemma run_as_http (c : Call) :
  exists (path : string) (init : option RequestInit),
    init_headers init = None /\
    forall s : State, snd (run c s) = snd (http path init s).
Proof.
  destruct c as [|query|message|b]; cbn [run].
  - now exists "/chatbot/get-chatbot-options", None.
  - unfold propertySearch. now eexists _, None.
  - unfold extractParams. now eexists _, (post _).
  - exists "/chatbot", (post (ChatBody_value b)). split; [reflexivity|].
    intros s. unfold sendChat, bind. now destruct (http _ _ s) as [[v|e] s'].
Qed.

Lemma ACCESS_TOKEN_http (path : string) (init : option RequestInit) (s : State) :
  ACCESS_TOKEN (snd (http path init s)) =
  ACCESS_TOKEN (snd (http_response path init s)).
Proof. rewrite http_run. now destruct (http_response path init s) as [[r|e] s']. Qed.

(** C7. [http] is private to the module: it runs only inside the four
    exported calls ([getChatbotOptions], [propertySearch],
    [extractParams], [sendChat]), none of which passes a [headers] key.
    Every fetch [http] issues there has Content-Type application/json
    and, when the access token of the moment is not empty, Authorization
    "Bearer " followed by it, and no Authorization header when it is
    empty.  For the first fetch that token is the one the login attempt
    left; for the retry it is the token the module holds when the call
    ends, the one the refresh saved. *)
Theorem exported_calls_carry_token (c : Call) (s : State) :
  match doFetches (issued s (snd (run c s))) with
  | [r1] => carries_token (ACCESS_TOKEN (snd (loginIfNeeded s))) r1
  | [r1; r2] =>
      carries_token (ACCESS_TOKEN (snd (loginIfNeeded s))) r1 /\
      carries_token (ACCESS_TOKEN (snd (run c s))) r2
  | _ => False
  end.
Proof.
  destruct (run_as_http c) as (path & init & Hi & E). rewrite E.
  pose proof (http_doFetches path init s) as D. cbv zeta in D. rewrite D.
  pose proof (fun tok => target_request_carries (BASE_URL +:+ path) init tok Hi) as C.
  destruct (answer _ _) as [|res] eqn:Ea; [apply C|].
  destruct (_ && _) eqn:Cond; [|apply C].
  destruct (refreshIfPossible _) as [[[|]|e] s2] eqn:R; try apply C.
  split; [apply C|].
  rewrite ACCESS_TOKEN_http, http_response_run. cbv zeta.
  rewrite Ea, Cond, R, fetch_run. cbn [snd].
  rewrite ACCESS_TOKEN_arrival. apply C.
Qed.

End Exported_calls.

(** ** Token masking *)

Section Mask.
Import JS Api.

Lemma length_append (a b : string) :
  String.length (a +:+ b) = (String.length a + String.length b)%nat.
Proof.
  induction a as [|c a IH]; [reflexivity|].
  change (S (String.length (a +:+ b)) = S (String.length a + String.length b)).
  now rewrite IH.
Qed.

Lemma substring_whole (b : string) : substring 0 (String.length b) b = b.
Proof. induction b as [|c b IH]; simpl; [reflexivity | now rewrite IH]. Qed.

Lemma substring_head (a x : string) :
  substring 0 (String.length a) (a +:+ x) = a.
Proof.
  induction a as [|c a IH]; [now destruct x|].
  change (String c (substring 0 (String.length a) (a +:+ x)) = String c a).
  now rewrite IH.
Qed.

Lemma substring_skip (a x : string) (m : nat) :
  substring (String.length a) m (a +:+ x) = substring 0 m x.
Proof.
  induction a as [|c a IH]; [reflexivity|].
  change (substring (String.length a) m (a +:+ x) = substring 0 m x).
  exact IH.
Qed.

(** X12. [maskToken] shows nothing of a token of at most eight characters
    (the result is "****", or empty for a missing or empty token), and of
    a longer token it shows the first four and the last four characters
    only: the characters in between do not reach the result. *)
Theorem maskToken_hides_middle :
  maskToken None = "" /\ maskToken (Some "") = "" /\
  (forall t : string,
     t <> "" -> (String.length t <= 8)%nat -> maskToken (Some t) = "****") /\
  (forall a mid b : string,
     String.length a = 4%nat -> String.length b = 4%nat -> mid <> "" ->
     maskToken (Some (a +:+ mid +:+ b)) = a +:+ "…" +:+ b).
Proof.
  split; [reflexivity|]. split; [reflexivity|]. split.
  - intros t Hne Hl. unfold maskToken.
    replace (truthy_string t) with true
      by (symmetry; now apply truthy_string_true).
    cbn [negb]. now apply Nat.leb_le in Hl as ->.
  - intros a mid b Ha Hb Hm. unfold maskToken.
    assert (Hne : a +:+ mid +:+ b <> "").
    { destruct a; [discriminate Ha | discriminate]. }
    replace (truthy_string (a +:+ mid +:+ b)) with true
      by (symmetry; now apply truthy_string_true).
    cbn [negb].
    assert (Hm' : (0 < String.length mid)%nat).
    { destruct mid; [congruence | simpl; lia]. }
    assert (Hl : String.length (a +:+ mid +:+ b) = (8 + String.length mid)%nat).
    { rewrite !length_append. lia. }
    replace (String.length (a +:+ mid +:+ b) <=? 8)%nat with false
      by (symmetry; apply Nat.leb_gt; lia).
    f_equal.
    + unfold slice0. rewrite <- Ha. apply substring_head.
    + f_equal. unfold slice_last. rewrite Hl.
      replace (8 + String.length mid - 4)%nat
        with (String.length (a +:+ mid)) by (rewrite length_append; lia).
      rewrite <- append_assoc, substring_skip, <- Hb. apply substring_whole.
Qed.

End Mask.

(* ===================================================================== *)
(** * Further properties of the component                                 *)
(* ===================================================================== *)

(** ** Buttons that are already well formed *)

Section Normalizer_more.
Import JS Chatbot ChatbotUi.

(** X13. [normalizeOptions] gives back, unchanged and in order, a list of
    buttons that already has the shape [{label, value}] with two strings,
    an empty label or value included. *)
Theorem normalizeOptions_keeps_buttons (qs : list QuickButton) :
  normalizeOptions (VArr (List.map QuickButton_value qs)) = qs.
Proof.
  unfold normalizeOptions.
  replace (first_is_string (List.map QuickButton_value qs)) with false
    by (now destruct qs).
  rewrite List.map_map.
  induction qs as [|[l v] qs IH]; [reflexivity|].
  cbn [List.map]. rewrite IH. f_equal.
Qed.

End Normalizer_more.

(** ** Pages *)

Section Pagination_more.
Import JS Chatbot.

(** X14. A call of [showMore] appends nothing or one page.  A page it
    appends is never empty, holds at most [itemsPerPage] consecutive
    properties, starting at index [currentPage * itemsPerPage] of the
    render that made the call, and the number its button announces is
    exactly the number of properties after the page (there is no button
    when none is left). *)
Theorem showMore_page_accounting (r : Render) (ui : Ui) :
  let p := currentPage (pagination r) in
  let n := itemsPerPage (pagination r) in
  let all := allPropertiesRef ui in
  pages (showMore r ui) = pages ui \/
  exists page : PropertyPage,
    pages (showMore r ui) = pages ui ++ [page] /\
    cards page = take n (drop (p * n) all) /\
    (0 < length (cards page) <= n)%nat /\
    (p * n + length (cards page) +
       match show_more page with Some k => k | None => 0 end
     = length all)%nat /\
    show_more page <> Some 0%nat.
Proof.
  intros p n all.
  destruct (showMore_page r ui) as (_ & Hp & Hn). cbv zeta in Hp, Hn.
  fold p n all in Hp, Hn.
  destruct (take n (drop (p * n) all)) as [|x next] eqn:En.
  { left. now rewrite Hn. }
  destruct (forallb readable (x :: next)) eqn:R.
  - right. destruct (Hp ltac:(discriminate) eq_refl) as [Hpages _].
    eexists. split; [exact Hpages|]. cbn [cards show_more].
    assert (Hlen : length (x :: next) = Nat.min n (length all - p * n)).
    { rewrite <- En, length_take, length_drop. reflexivity. }
    assert (Hpos : (0 < length (x :: next))%nat) by (cbn; lia).
    split; [reflexivity|]. split; [lia|].
    split.
    + destruct (Nat.ltb_spec 0 (length all - Nat.min (p * n + n) (length all))); lia.
    + destruct (Nat.ltb_spec 0 (length all - Nat.min (p * n + n) (length all)));
        [intros [= E]; lia | discriminate].
  - left. unfold showMore. fold p n all.
    replace ((p + 1 - 1) * n)%nat with (p * n)%nat by lia.
    assert (Es : slice (p * n) (Nat.min (p * n + n) (length all)) all = x :: next).
    { rewrite <- En. unfold slice.
      destruct (Nat.le_ge_cases (p * n + n) (length all)) as [L|L].
      - rewrite Nat.min_l by lia. f_equal. lia.
      - rewrite Nat.min_r by lia.
        rewrite (take_ge (drop (p * n) all) n) by (rewrite length_drop; lia).
        apply take_ge. rewrite length_drop. lia. }
    rewrite Es. cbn [length Nat.eqb]. unfold renderProperties. now rewrite R.
Qed.


End Pagination_more.

Section Pagination_more_demo.
Import JS Chatbot Demo.


End Pagination_more_demo.


(** ** The message of a reply *)

Section Reply.
Import JS Api Chatbot ChatbotUi.
Context `{Browser} `{Engine}.

Lemma shown_result_nonempty (resp : value) (txt : string) :
  shown_result resp = Some txt -> txt <> "".
Proof.
  unfold shown_result. destruct (get "result" resp); try discriminate.
  destruct (truthy_string (trim s)) eqn:T; [|discriminate].
  intros [= <-]. now apply truthy_string_true.
Qed.

Lemma nonempty_Some (o : option (list QuickButton)) :
  nonempty o = true -> exists b bs, o = Some (b :: bs).
Proof. destruct o as [[|b bs]|]; try discriminate. intros _. now exists b, bs. Qed.

(** X16. Take a reply in which [String] can print every option (no
    object with an own [toString], numbers whole and below 2^53) and
    whose [html], outside onboarding, is a string when it is truthy.  The
    reply puts at most one message in the list, from the Bot, and touches
    nothing else of the interface.  That message never has both buttons
    and a dropdown.  A dropdown is shown only for an onboarding reply
    whose [response_type] asks for one, is never empty and comes alone
    (no text, no html).  An onboarding message never has both text and
    html; any other message has a text that is not empty, and has buttons
    only when [response_type] asks for them and there is at least one.
    On such a reply the callback fails (TypeError of [html.trim]) for
    onboarding replies only. *)
Theorem replyMessage_shape (resp : value) (ui : Ui) :
  printable resp = true ->
  (lower_if_string (get "type" resp) <> "onboarding" -> html_is_text resp) ->
  let onboarding := lower_if_string (get "type" resp) = "onboarding" in
  let responseUi := lower_if_string (get "response_type" resp) in
  match replyMessage resp ui with
  | None => onboarding /\ html_test resp = TrimTypeError
  | Some ui' =>
      pagination_state ui' = pagination_state ui /\
      allPropertiesRef ui' = allPropertiesRef ui /\
      show_more_onclick ui' = show_more_onclick ui /\
      (messages ui' = messages ui \/
       exists m : Message,
         messages ui' = messages ui ++ [m] /\
         sender m = Bot /\
         (buttons m = None \/ dropdown m = None) /\
         (forall dd, dropdown m = Some dd ->
            onboarding /\ isDropdown responseUi = true /\ dd <> [] /\
            Chatbot.text m = "" /\ html m = None) /\
         (onboarding -> Chatbot.text m = "" \/ html m = None) /\
         (~ onboarding ->
            Chatbot.text m <> "" /\
            (forall bs, buttons m = Some bs ->
               isButtons responseUi = true /\ bs <> []) /\
            html m = match get "html" resp with
                     | VStr s => if truthy_string s then Some (Markup s) else None
                     | _ => None
                     end))
  end.
Proof.
  intros _ Ht. cbv zeta. unfold replyMessage.
  destruct (String.eqb_spec (lower_if_string (get "type" resp)) "onboarding")
    as [On|Off].
  - (* onboarding *)
    destruct (isDropdown _ && nonempty (dropdown_of resp)) eqn:D.
    { apply andb_true_iff in D as [Dd Dn].
      destruct (nonempty_Some _ Dn) as (b & bs & Edd).
      split; [reflexivity|]. split; [reflexivity|]. split; [reflexivity|].
      right. eexists. split; [reflexivity|]. cbn.
      split; [reflexivity|]. split; [now left|]. split; [|split].
      - intros dd Edd'. rewrite Edd in Edd'. injection Edd' as <-.
        repeat split; trivial. discriminate.
      - intros _. now left.
      - intros N. now destruct N. }
    destruct (isButtons _ && nonempty (buttons_of resp)) eqn:B.
    { split; [reflexivity|]. split; [reflexivity|]. split; [reflexivity|].
      right. eexists. split; [reflexivity|]. cbn.
      split; [reflexivity|]. split; [now right|]. split; [|split].
      - intros dd [=].
      - intros _. now left.
      - intros N. now destruct N. }
    destruct (html_test resp) as [|s|]; [| |now split].
    + destruct (shown_result resp) as [txt|].
      2:{ split; [reflexivity|]. split; [reflexivity|]. split; [reflexivity|].
          now left. }
      split; [reflexivity|]. split; [reflexivity|]. split; [reflexivity|].
      right. eexists. split; [reflexivity|]. cbn.
      split; [reflexivity|]. split; [now right|]. split; [|split].
      * intros dd [=].
      * intros _. now right.
      * intros N. now destruct N.
    + split; [reflexivity|]. split; [reflexivity|]. split; [reflexivity|].
      right. eexists. split; [reflexivity|]. cbn.
      split; [reflexivity|]. split; [now right|]. split; [|split].
      * intros dd [=].
      * intros _. now left.
      * intros N. now destruct N.
  - (* any other reply *)
    destruct (shown_result resp) as [txt|] eqn:Sr.
    2:{ split; [reflexivity|]. split; [reflexivity|]. split; [reflexivity|].
        now left. }
    pose proof (shown_result_nonempty resp txt Sr) as Ne.
    assert (Hh : html_or_null (html_or_null_of resp) =
                 match get "html" resp with
                 | VStr s => if truthy_string s then Some (Markup s) else None
                 | _ => None
                 end).
    { specialize (Ht Off). unfold html_is_text in Ht. unfold html_or_null_of.
      destruct (truthy (get "html" resp)) eqn:T.
      - specialize (Ht eq_refl). destruct (get "html" resp); try discriminate Ht.
        cbn in T. cbn. now rewrite T.
      - destruct (get "html" resp); try reflexivity. cbn in T. now rewrite T. }
    destruct (isButtons _ && nonempty (buttons_of resp)) eqn:B.
    + apply andb_true_iff in B as [Bb Bn].
      destruct (nonempty_Some _ Bn) as (b & bs & Ebs).
      split; [reflexivity|]. split; [reflexivity|]. split; [reflexivity|].
      right. eexists. split; [reflexivity|]. cbn.
      split; [reflexivity|]. split; [now right|]. split; [|split].
      * intros dd [=].
      * intros On. now destruct Off.
      * intros _. split; [exact Ne|]. split; [|exact Hh].
        rewrite Ebs. intros ? [= <-]. split; [exact Bb | discriminate].
    + split; [reflexivity|]. split; [reflexivity|]. split; [reflexivity|].
      right. eexists. split; [reflexivity|]. cbn.
      split; [reflexivity|]. split; [now right|]. split; [|split].
      * intros dd [=].
      * intros On. now destruct Off.
      * intros _. split; [exact Ne|]. split; [|exact Hh]. intros ? [=].
Qed.

End Reply.

Section Reply_demo.
Import JS Api Chatbot ChatbotUi DemoEngine.

(** X16 at an onboarding reply that asks for a dropdown of two options. *)
Lemma replyMessage_shape_witness :
  let resp :=
    VObj [("type", VStr "Onboarding"); ("response_type", VStr "SELECT");
          ("result", VStr "Pick one"); ("select_options", VArr [VStr "1"; VStr "2"])] in
  let ui := Chatbot.initial in
  let onboarding := lower_if_string (get "type" resp) = "onboarding" in
  let responseUi := lower_if_string (get "response_type" resp) in
  printable resp = true /\
  (lower_if_string (get "type" resp) <> "onboarding" -> html_is_text resp) /\
  match replyMessage resp ui with
  | None => onboarding /\ html_test resp = TrimTypeError
  | Some ui' =>
      pagination_state ui' = pagination_state ui /\
      allPropertiesRef ui' = allPropertiesRef ui /\
      show_more_onclick ui' = show_more_onclick ui /\
      (messages ui' = messages ui \/
       exists m : Message,
         messages ui' = messages ui ++ [m] /\
         sender m = Bot /\
         (buttons m = None \/ dropdown m = None) /\
         (forall dd, dropdown m = Some dd ->
            onboarding /\ isDropdown responseUi = true /\ dd <> [] /\
            Chatbot.text m = "" /\ html m = None) /\
         (onboarding -> Chatbot.text m = "" \/ html m = None) /\
         (~ onboarding ->
            Chatbot.text m <> "" /\
            (forall bs, buttons m = Some bs ->
               isButtons responseUi = true /\ bs <> []) /\
            html m = match get "html" resp with
                     | VStr s => if truthy_string s then Some (Markup s) else None
                     | _ => None
                     end))
  end.
Proof.
  intros resp ui onboarding responseUi.
  assert (P : printable resp = true) by reflexivity.
  assert (T : lower_if_string (get "type" resp) <> "onboarding" -> html_is_text resp)
    by (intros _ E; discriminate E).
  split; [exact P|]. split; [exact T|].
  exact (replyMessage_shape resp ui P T).
Defined.

End Reply_demo.

(** ** What the handlers do to the message list *)

Section Handlers.
Import JS Api Chatbot ChatbotUi.
Context `{Browser} `{Engine}.

Lemma bot_suffix_same (k : nat) (ui ui' : Ui) :
  messages ui' = messages ui -> bot_suffix k ui ui'.
Proof.
  intros E. exists []. rewrite E, app_nil_r. repeat split; [cbn; lia | constructor].
Qed.

Lemma bot_suffix_one (k : nat) (ui ui' : Ui) (m : Message) :
  messages ui' = messages ui ++ [m] -> sender m = Bot -> (1 <= k)%nat ->
  bot_suffix k ui ui'.
Proof. intros E S K. exists [m]. repeat split; trivial. now repeat constructor. Qed.

Lemma bot_suffix_trans (j k : nat) (a b c : Ui) :
  bot_suffix j a b -> bot_suffix k b c -> bot_suffix (j + k) a c.
Proof.
  intros (n1 & E1 & L1 & F1) (n2 & E2 & L2 & F2). exists (n1 ++ n2).
  rewrite E2, E1, <- app_assoc, length_app. repeat split; [lia|].
  apply Forall_app. now split.
Qed.

Lemma messages_bind_show_more (r : Render) (ui : Ui) :
  messages (bind_show_more r ui) = messages ui.
Proof. unfold bind_show_more. now destruct (existsb _ _). Qed.

Lemma bot_suffix_showMore (r : Render) (ui : Ui) : bot_suffix 1 ui (showMore r ui).
Proof.
  unfold showMore. destruct (_ =? 0)%nat; [now apply bot_suffix_same|].
  destruct (renderProperties _ _) as [h|]; [|now apply bot_suffix_same].
  eapply bot_suffix_one;
    [rewrite messages_bind_show_more; reflexivity | reflexivity | lia].
Qed.

Lemma bot_suffix_promptProperties (r : Render) (resp : value) (ui : Ui) :
  bot_suffix 1 ui (promptProperties r resp ui).
Proof.
  unfold promptProperties. destruct (0 <? _)%nat; [|now apply bot_suffix_same].
  destruct (first_page _) as [h|].
  - eapply bot_suffix_one;
      [rewrite messages_bind_show_more; reflexivity | reflexivity | lia].
  - eapply bot_suffix_one; [reflexivity|reflexivity|lia].
Qed.

Lemma bot_suffix_searchResults (r : Render) (data : value) (ui : Ui) :
  bot_suffix 1 ui (searchResults r data ui).
Proof.
  unfold searchResults. destruct (_ =? 0)%nat.
  { eapply bot_suffix_one; [reflexivity|reflexivity|lia]. }
  destruct (first_page _) as [h|].
  - eapply bot_suffix_one;
      [rewrite messages_bind_show_more; reflexivity | reflexivity | lia].
  - eapply bot_suffix_one; [reflexivity|reflexivity|lia].
Qed.

Lemma bot_suffix_replyMessage (resp : value) (ui ui' : Ui) :
  replyMessage resp ui = Some ui' -> bot_suffix 1 ui ui'.
Proof.
  unfold replyMessage.
  repeat match goal with
         | |- context [if ?b then _ else _] => destruct b
         | |- context [match html_test ?r with _ => _ end] => destruct (html_test r)
         | |- context [match shown_result ?r with _ => _ end] =>
             destruct (shown_result r)
         end;
    intros [= <-];
    solve [ now apply bot_suffix_same
          | eapply bot_suffix_one; [reflexivity|reflexivity|lia] ].
Qed.

Lemma bot_suffix_promptThen (r : Render) (resp : value) (ui : Ui) :
  bot_suffix 2 ui (promptThen r resp ui).
Proof.
  unfold promptThen. destruct (replyMessage resp ui) as [ui1|] eqn:E.
  - apply (bot_suffix_trans 1 1 _ ui1 _ (bot_suffix_replyMessage resp ui ui1 E)).
    apply bot_suffix_promptProperties.
  - eapply bot_suffix_one; [reflexivity|reflexivity|lia].
Qed.

Lemma bot_suffix_sendPrompt (c : Closure) (txt : string) (app : App) :
  bot_suffix 2 (ui app) (ui (sendPrompt c txt app)).
Proof.
  unfold sendPrompt. destruct (sendChat _ _) as [[resp|e] st]; cbn.
  - apply bot_suffix_promptThen.
  - eapply bot_suffix_one; [reflexivity|reflexivity|lia].
Qed.

Lemma bot_suffix_runPropertySearch (c : Closure) (app : App) :
  bot_suffix 2 (ui app) (ui (runPropertySearch c app)).
Proof.
  unfold runPropertySearch.
  set (ui1 := appendBot (searching_text (searchState c)) None None None (ui app)).
  assert (S1 : bot_suffix 1 (ui app) ui1)
    by (eapply bot_suffix_one; [reflexivity|reflexivity|lia]).
  destruct (propertySearch _ _) as [[data|e] st]; cbn.
  - apply (bot_suffix_trans 1 1 _ ui1 _ S1). apply bot_suffix_searchResults.
  - apply (bot_suffix_trans 1 1 _ ui1 _ S1).
    eapply bot_suffix_one; [reflexivity|reflexivity|lia].
Qed.

(** X17. Whatever the user does (send a text, press a quick button, pick a
    city, press Show More) and whatever the backend answers, the messages
    already in the list stay as they are, in place: the handler adds at
    most three messages at the end, at most the first of them from the
    user and the others from the Bot. *)
Theorem actions_only_append (c : Closure) (a : Action) (app : App) :
  exists (said : list Message) (ui1 : Ui),
    (said = [] \/ exists m, said = [m] /\ sender m = You) /\
    messages ui1 = messages (ui app) ++ said /\
    bot_suffix 2 ui1 (ui (perform c a app)).
Proof.
  pose (you := fun t : string =>
          {| sender := You; Chatbot.text := t; html := None;
             buttons := None; dropdown := None |}).
  destruct a as [input|v|city_|]; cbn [perform].
  - unfold onSend. destruct (negb _).
    + exists [], (ui app). split; [now left|]. split; [now rewrite app_nil_r|].
      now apply bot_suffix_same.
    + exists [you (trim input)], (appendYou (trim input) (ui app)).
      split; [right; now eexists|]. split; [reflexivity|].
      apply (bot_suffix_sendPrompt c (trim input)
               (with_ui (appendYou (trim input)) app)).
  - unfold onQuick. exists [you v], (appendYou v (ui app)).
    split; [right; now eexists|]. split; [reflexivity|].
    apply (bot_suffix_sendPrompt c v (with_ui (appendYou v) app)).
  - unfold selectCity. exists [you city_], (appendYou city_ (ui app)).
    split; [right; now eexists|]. split; [reflexivity|].
    apply (bot_suffix_runPropertySearch c
             (with_ui (appendYou city_) (setCity city_ app))).
  - exists [], (ui app). split; [now left|]. split; [now rewrite app_nil_r|].
    cbn. unfold click_show_more.
    destruct (show_more_onclick (ui app)) as [r|]; [|now apply bot_suffix_same].
    destruct (bot_suffix_showMore r (ui app)) as (new & E & L & F).
    exists new. repeat split; trivial. lia.
Qed.

End Handlers.

(** ** Failures, dead buttons and the city search *)

Section Prompt.
Import JS Api Chatbot ChatbotUi.
Context `{Browser} `{Engine}.

(** X18. When the chat endpoint's final response is not ok, [sendPrompt]
    shows the user exactly one new Bot message, whose text is "HTTP "
    followed by the status and, when the body is readable and not empty,
    ": " and its first 500 characters; the property list, the page counter
    and the Show More handler are untouched. *)
Theorem sendPrompt_shows_http_error
    (c : Closure) (txt : string) (app : App) (res : Response) (st : Api.State) :
  let body_ := {| user_id := userIdRef app; prompt := txt;
                  property_data := Some (property_data_of (searchState c)) |} in
  http_response "/chatbot" (post (ChatBody_value body_)) (api app) = (Resolved res, st) ->
  ok res = false ->
  let detail := match Api.text res with
                | Some (String a t) => ": " +:+ slice0 500 (String a t)
                | _ => ""
                end in
  ui (sendPrompt c txt app) =
    appendBot ("HTTP " +:+ String_of_Z (status res) +:+ detail) None None None (ui app) /\
  api (sendPrompt c txt app) = st.
Proof.
  intros body_ E Hok detail. unfold sendPrompt. fold body_.
  assert (R : sendChat body_ (api app) =
              (Rejected (Error ("HTTP " +:+ String_of_Z (status res) +:+ detail)), st)).
  { unfold sendChat, bind. rewrite http_run, E. cbn [fst].
    unfold http_result. rewrite Hok. cbn [negb]. unfold throw, detail. cbn [fst].
    destruct (Api.text res) as [[|a t]|]; reflexivity. }
  rewrite R. now split.
Qed.


(** X20. The search that [selectCity] starts is built from the search
    state of the render that made the city button, not from the city just
    picked.  City buttons are shown only while the search state has no
    city, and then the request carries no [location] parameter, although
    the city is recorded for the next render. *)
Theorem selectCity_searches_without_the_city
    (c : Closure) (city_ : string) (app : App) :
  city (searchState c) = None ->
  let app' := selectCity c city_ app in
  let query := search_params (searchState c) in
  city (searchState_state app') = Some city_ /\
  api app' = snd (propertySearch query (api app)) /\
  assoc "location" query = None /\
  Forall (fun kv => fst kv = "price" \/ fst kv = "intBeds") query.
Proof.
  intros Ec app' query. split; [|split; [|split]].
  - unfold app', selectCity, runPropertySearch.
    now destruct (propertySearch _ _) as [[d|e] st].
  - unfold app', selectCity, runPropertySearch. fold query.
    change (api (with_ui _ (with_ui _ (setCity city_ app)))) with (api app).
    now destruct (propertySearch query (api app)) as [[d|e] st].
  - unfold query, search_params. rewrite Ec.
    destruct (price (searchState c)) as [p|], (intBeds (searchState c)) as [b|];
      repeat match goal with |- context [Z.eqb ?x 0] => destruct (Z.eqb x 0) end;
      reflexivity.
  - unfold query, search_params. rewrite Ec.
    destruct (price (searchState c)) as [p|], (intBeds (searchState c)) as [b|];
      repeat match goal with |- context [Z.eqb ?x 0] => destruct (Z.eqb x 0) end;
      cbn;
      repeat (apply List.Forall_cons;
              [first [left; reflexivity | right; reflexivity]|]);
      apply List.Forall_nil.
Qed.

End Prompt.

Section Prompt_demo.
Import JS Api Chatbot ChatbotUi DemoEngine.

(** X18 at the backend of [DemoDown]: the user reads "HTTP 500: boom". *)
Lemma sendPrompt_shows_http_error_witness :
  let app := app_of DemoDown.fresh in
  let c := render_app app in
  messages (ui (@sendPrompt DemoDown.browser engine c "hello" app)) =
    [{| sender := Bot; Chatbot.text := "HTTP 500: boom"; html := None;
        buttons := None; dropdown := None |}].
Proof.
  cbv zeta.
  pose (app := app_of DemoDown.fresh).
  pose (body_ := {| user_id := userIdRef app; prompt := "hello";
                    property_data :=
                      Some (property_data_of (searchState (render_app app))) |}).
  assert (E : @http_response DemoDown.browser "/chatbot"
                (@post DemoDown.browser (ChatBody_value body_)) (api app) =
              (Resolved {| status := 500; Api.text := Some "boom" |},
               snd (@http_response DemoDown.browser "/chatbot"
                      (@post DemoDown.browser (ChatBody_value body_)) (api app))))
    by (vm_compute; reflexivity).
  destruct (@sendPrompt_shows_http_error DemoDown.browser engine
              (render_app app) "hello" app _ _ E eq_refl) as [U _].
  fold app. rewrite U. reflexivity.
Defined.


(** X20 in the first render of [app_of]: two beds chosen, no city yet. *)
Lemma selectCity_searches_without_the_city_witness :
  let app := app_of Demo.fresh in
  let app' := @selectCity Demo.browser engine (render_app app) "George Town" app in
  city (searchState_state app') = Some "George Town" /\
  search_params (searchState (render_app app)) = [("intBeds", VNum 2)].
Proof.
  cbv zeta.
  destruct (@selectCity_searches_without_the_city Demo.browser engine
              (render_app (app_of Demo.fresh)) "George Town" (app_of Demo.fresh)
              eq_refl) as (C & _).
  split; [exact C | reflexivity].
Defined.

End Prompt_demo.

(** ** A search always answers *)

Section Search_feedback.
Import JS Api Chatbot ChatbotUi.
Context `{Browser} `{Engine}.

(** X21. A property search always tells the user how it ended: it puts
    exactly two Bot messages in the list, first the "Searching
    properties..." line and then one of "No properties found for your
    criteria.", "Failed to fetch property listings." (when the request
    fails or a card cannot be built) and "Found N ..." with the first
    page. *)
Theorem runPropertySearch_two_messages (c : Closure) (app : App) :
  exists m1 m2 : Message,
    messages (ui (runPropertySearch c app)) = messages (ui app) ++ [m1; m2] /\
    sender m1 = Bot /\ Chatbot.text m1 = searching_text (searchState c) /\
    sender m2 = Bot /\
    ((Chatbot.text m2 = "No properties found for your criteria." /\ html m2 = None) \/
     (Chatbot.text m2 = "Failed to fetch property listings." /\ html m2 = None) \/
     exists (l : list value) (page : PropertyPage),
       l <> [] /\ cards page = take 3 l /\
       Chatbot.text m2 = found (length l) " for your criteria:" /\
       html m2 = Some (Properties page)).
Proof.
  unfold runPropertySearch.
  destruct (propertySearch _ _) as [[data|e] st]; cbn [ui with_ui with_api].
  - unfold searchResults.
    destruct (length (properties_of data) =? 0)%nat eqn:L.
    + eexists _, _. split.
      { cbn. rewrite <- app_assoc. reflexivity. }
      cbn. repeat split. now left.
    + destruct (first_page (properties_of data)) as [h|] eqn:F.
      * eexists _, _. split.
        { rewrite messages_bind_show_more. cbn. rewrite <- app_assoc. reflexivity. }
        cbn. repeat split. right. right.
        unfold first_page, renderProperties in F. rewrite slice_0 in F.
        destruct (forallb readable _); [|discriminate]. injection F as <-.
        eexists (properties_of data), _.
        split; [intros E; rewrite E in L; discriminate|].
        split; [|split; [reflexivity|reflexivity]]. reflexivity.
      * eexists _, _. split.
        { cbn. rewrite <- app_assoc. reflexivity. }
        cbn. repeat split. right. now left.
  - eexists _, _. split.
    { cbn. rewrite <- app_assoc. reflexivity. }
    cbn. repeat split. right. now left.
Qed.

End Search_feedback.

(** ** The component at work *)

Section Demo_component.
Import JS Api Chatbot ChatbotUi DemoEngine.

(** Replies of the assistant: an onboarding dropdown comes alone; outside
    onboarding an html-only reply shows nothing and buttons nobody asked
    for are dropped; an onboarding reply whose [html] is a number ends in
    the TypeError message. *)
Example demo_replies :
  let dropdown_reply :=
    VObj [("type", VStr "Onboarding"); ("response_type", VStr "SELECT");
          ("result", VStr "Pick one"); ("select_options", VArr [VStr "1"; VStr "2"])] in
  let html_only := VObj [("html", VStr "<b>hi</b>"); ("result", VStr "  ")] in
  let unasked := VObj [("result", VStr " Hello "); ("buttons", VArr [VStr "Yes"])] in
  let bad_html := VObj [("type", VStr "onboarding"); ("html", VNum 5)] in
  let r := render Chatbot.initial in
  messages (@promptThen engine r dropdown_reply Chatbot.initial) =
    [{| sender := Bot; Chatbot.text := ""; html := None; buttons := None;
        dropdown := Some [{| label := "1"; value_ := "1" |};
                          {| label := "2"; value_ := "2" |}] |}] /\
  messages (@promptThen engine r html_only Chatbot.initial) = [] /\
  messages (@promptThen engine r unasked Chatbot.initial) =
    [{| sender := Bot; Chatbot.text := "Hello"; html := None; buttons := None;
        dropdown := None |}] /\
  messages (@promptThen engine r bad_html Chatbot.initial) =
    [{| sender := Bot; Chatbot.text := trim_TypeError_message; html := None;
        buttons := None; dropdown := None |}].
Proof. vm_compute. repeat split. Qed.

(** A prompt sent against the scripted backend of [Demo]: the reply is the
    empty object, so the user's text is the only new message. *)
Example demo_onSend :
  let app := app_of Demo.fresh in
  let app' := @perform Demo.browser engine (render_app app) (Send "  hello ") app in
  List.map (fun m => (sender m, Chatbot.text m)) (messages (ui app')) = [(You, "hello")] /\
  ACCESS_TOKEN (api app') = "a2" /\
  @perform Demo.browser engine (render_app app) (Send "   ") app = app.
Proof. vm_compute. repeat split. Qed.

End Demo_component.
